(** * jquery.parallax.js: the motion-to-offset pipeline

    A shallow embedding of [source/jquery.parallax.js] (the [Plugin]
    constructor, its prototype methods and the events that drive them),
    followed by the properties of the specification checked against it.

    Numbers.  The program is embedded twice.  In the first embedding,
    of the whole plugin, a JavaScript number is [NaN] or a finite value
    taken exactly, as a rational: rounding, overflow, the infinities and
    the sign of zero are outside it, and equality of finite numbers is
    [Qeq] where a value is the result of arithmetic.  It carries the
    properties of the control flow, of the state and of the events, and
    those of the arithmetic that hold digit for digit in double
    precision as well.  The second embedding, the module [IEEE], is of
    the methods that compute the offsets and the positions, over IEEE
    754 binary64 numbers: it carries the properties that depend on
    overflow and on the infinities.

    Dynamic typing.  The fields of the instance hold JavaScript values
    ([value]); arithmetic goes through [ToNumber], conditions through
    [ToBoolean], as the language does.  The three conversions between
    strings and numbers are built-ins of the language whose definition
    plays no part here: they are the methods of the class [Builtins], so
    that every result holds whatever they compute. *)

From Stdlib Require Import ZArith QArith Qabs Lqa Bool Ascii String List SpecFloat.
From stdpp Require Import base option strings list gmap fin_maps.

Local Open Scope Z_scope.
Local Open Scope Q_scope.

(** ** JavaScript values *)

Inductive number : Type :=
| NaN
| Num (q : Q).

Inductive value : Type :=
| VUndefined
| VNull
| VBool (b : bool)
| VNumber (n : number)
| VString (s : string).

Coercion VNumber : number >-> value.

#[global] Instance Q_eq_dec : EqDecision Q.
Proof. solve_decision. Defined.

#[global] Instance number_eq_dec : EqDecision number.
Proof. solve_decision. Defined.

#[global] Instance value_eq_dec : EqDecision value.
Proof. solve_decision. Defined.

Module JS.

Definition isNaN (n : number) : bool :=
  match n with NaN => true | Num _ => false end.

(** [a - b], [a * b], [-a] and [Math.abs(a)] on numbers. *)
Definition sub (a b : number) : number :=
  match a, b with
  | Num x, Num y => Num (x - y)
  | _, _ => NaN
  end.

Definition mul (a b : number) : number :=
  match a, b with
  | Num x, Num y => Num (x * y)
  | _, _ => NaN
  end.

Definition neg (a : number) : number :=
  match a with
  | Num x => Num (- x)
  | NaN => NaN
  end.

Definition abs (a : number) : number :=
  match a with
  | Num x => Num (Qabs x)
  | NaN => NaN
  end.

(** [a > b]: false as soon as one side is [NaN]. *)
Definition gt (a b : number) : bool :=
  match a, b with
  | Num x, Num y => negb (Qle_bool x y)
  | _, _ => false
  end.

(** [Math.max(a, b)] and [Math.min(a, b)]: [NaN] as soon as one
    argument is. *)
Definition max (a b : number) : number :=
  match a, b with
  | Num x, Num y => if Qle_bool x y then Num y else Num x
  | _, _ => NaN
  end.

Definition min (a b : number) : number :=
  match a, b with
  | Num x, Num y => if Qle_bool x y then Num x else Num y
  | _, _ => NaN
  end.

(** Truthiness: [undefined], [null], [false], [0], [NaN] and the empty
    string are falsy. *)
Definition ToBoolean (v : value) : bool :=
  match v with
  | VUndefined | VNull => false
  | VBool b => b
  | VNumber NaN => false
  | VNumber (Num q) => negb (Qeq_bool q 0)
  | VString s => negb (String.eqb s EmptyString)
  end.

(** [a || b] *)
Definition or (a b : value) : value :=
  if ToBoolean a then a else b.

(** [v === undefined] *)
Definition is_undefined (v : value) : bool :=
  match v with VUndefined => true | _ => false end.

End JS.


(** The string conversions of the language: [Number(s)], the prefix
    parser of [parseFloat(s)] and [String(n)]. *)
Class Builtins : Type := {
  StringToNumber : string -> number;
  parseFloatString : string -> number;
  NumberToString : number -> string
}.

(** An instance for the closed examples at the end: none of them coerces
    a string to a number or prints a number, so that the instance plays
    no part in them. *)
Definition exampleBuiltins : Builtins :=
  {| StringToNumber := fun _ => NaN;
     parseFloatString := fun _ => NaN;
     NumberToString := fun _ => "NaN"%string |}.

(** ** Decimal literals

    What [Number(s)] and [parseFloat(s)] compute on a decimal literal:
    an optional sign, digits with an optional fraction, an optional
    exponent.  [parseFloat] skips the blanks before the literal and
    takes the longest prefix that is one; [Number] wants the whole
    string, blanks at both ends apart, and reads the blank string as
    0.  The literal "Infinity" and the hexadecimal, octal and binary
    literals of [Number] are not covered. *)











(** * The arithmetic of the frame in double precision

    A second embedding of the methods whose results depend on the
    arithmetic of the language beyond the exact one: [initialise],
    [calibrate], [enable], [limit], [clamp], [setPosition] and
    [onAnimationFrame], over IEEE 754 binary64 numbers as JavaScript
    has them, with rounding to nearest even, overflow to the
    infinities, the signed zeros and one [NaN].  The operations are
    those of [SpecFloat] at precision 53 and maximal exponent 1024. *)

Module IEEE.

Local Open Scope Z_scope.

Definition prec : Z := 53.
Definition emax : Z := 1024.

Definition number : Type := spec_float.

Definition NaN : number := S754_nan.
Definition Infinity : number := S754_infinity false.

(** The number an integer literal denotes, and [Number.MAX_VALUE]. *)
Definition ofZ (z : Z) : number := binary_normalize prec emax z 0 false.
Definition zero : number := S754_zero false.
Definition one : number := Eval vm_compute in ofZ 1.
Definition minusOne : number := Eval vm_compute in ofZ (-1).
Definition MAX_VALUE : number := Eval vm_compute in SFmax_float prec emax.

Inductive value : Type :=
| VUndefined
| VNull
| VBool (b : bool)
| VNumber (n : number)
| VString (s : string).

Coercion VNumber : number >-> value.

Module JS.

Definition isNaN (n : number) : bool :=
  match n with S754_nan => true | _ => false end.

(** [isFinite(n)]: neither [NaN] nor an infinity. *)
Definition isFinite (n : number) : bool :=
  match n with
  | S754_zero _ | S754_finite _ _ _ => true
  | _ => false
  end.

Definition isZero (n : number) : bool :=
  match n with S754_zero _ => true | _ => false end.

(** [a - b], [a * b], [-a] and [Math.abs(a)]. *)
Definition sub (a b : number) : number := SFsub prec emax a b.
Definition mul (a b : number) : number := SFmul prec emax a b.
Definition neg (a : number) : number := SFopp a.
Definition abs (a : number) : number := SFabs a.

(** [a > b], [a <= b] and [a < b]: false as soon as one side is
    [NaN]. *)
Definition gt (a b : number) : bool :=
  match SFcompare a b with Some Gt => true | _ => false end.

Definition le (a b : number) : bool := SFleb a b.
Definition lt (a b : number) : bool := SFltb a b.

(** [Math.max(a, b)] and [Math.min(a, b)]: [NaN] as soon as one
    argument is; [+0] counts as larger than [-0]. *)
Definition max (a b : number) : number :=
  match SFcompare a b with
  | None => NaN
  | Some Gt => a
  | Some Lt => b
  | Some Eq => match a with S754_zero true => b | _ => a end
  end.

Definition min (a b : number) : number :=
  match SFcompare a b with
  | None => NaN
  | Some Lt => a
  | Some Gt => b
  | Some Eq => match a with S754_zero false => b | _ => a end
  end.

(** Truthiness: [undefined], [null], [false], [+0], [-0], [NaN] and the
    empty string are falsy. *)
Definition ToBoolean (v : value) : bool :=
  match v with
  | VUndefined | VNull => false
  | VBool b => b
  | VNumber n => negb (isZero n || isNaN n)
  | VString s => negb (String.eqb s EmptyString)
  end.

(** [a || b] *)
Definition or (a b : value) : value :=
  if ToBoolean a then a else b.

(** [v === undefined] *)
Definition is_undefined (v : value) : bool :=
  match v with VUndefined => true | _ => false end.

End JS.

(** [Number(s)] and the prefix parser of [parseFloat(s)], as for the
    exact numbers. *)
Class Builtins : Type := {
  StringToNumber : string -> number;
  parseFloatString : string -> number
}.

Definition exampleBuiltins : Builtins :=
  {| StringToNumber := fun _ => NaN;
     parseFloatString := fun _ => NaN |}.

Section Program.

Context {builtins : Builtins}.

Definition ToNumber (v : value) : number :=
  match v with
  | VUndefined => NaN
  | VNull => zero
  | VBool true => one
  | VBool false => zero
  | VNumber n => n
  | VString s => StringToNumber s
  end.

(** [parseFloat(v)] parses [String(v)]: a number printed and parsed
    again is itself, but for [-0], which prints as "0". *)
Definition parseFloat (v : value) : number :=
  match v with
  | VUndefined | VNull | VBool _ => NaN
  | VNumber (S754_zero _) => zero
  | VNumber n => n
  | VString s => parseFloatString s
  end.

Record Plugin : Type := Build_Plugin {
  transition : value;
  calibrationThreshold : value;
  calibrationDelay : value;
  invertX : value;
  invertY : value;
  limitX : value;
  limitY : value;
  scalarX : value;
  scalarY : value;
  layers : list value;
  calibrationTimer : option nat;
  calibrationFlag : bool;
  depths : list value;
  raf : option nat;
  cx : value;
  cy : value;
  cz : value;
  rx : value;
  ry : value;
  rz : value;
  ox : number;
  oy : number;
  portrait : bool
}.

Record Window : Type := Build_Window {
  innerWidth : Z;
  innerHeight : Z;
  handlers : nat;
  frames : list nat;
  timers : list (nat * value);
  nextHandle : nat
}.

Record World : Type := Build_World {
  this : Plugin;
  window : Window
}.

Definition set_limitX (v : value) (p : Plugin) : Plugin :=
  let 'Build_Plugin a1 a2 a3 a4 a5 _ a7 a8 a9 a10 a11 a12 a13 a14 a15 a16 a17 a18 a19 a20 a21 a22 a23 := p in
  Build_Plugin a1 a2 a3 a4 a5 v a7 a8 a9 a10 a11 a12 a13 a14 a15 a16 a17 a18 a19 a20 a21 a22 a23.
Definition set_limitY (v : value) (p : Plugin) : Plugin :=
  let 'Build_Plugin a1 a2 a3 a4 a5 a6 _ a8 a9 a10 a11 a12 a13 a14 a15 a16 a17 a18 a19 a20 a21 a22 a23 := p in
  Build_Plugin a1 a2 a3 a4 a5 a6 v a8 a9 a10 a11 a12 a13 a14 a15 a16 a17 a18 a19 a20 a21 a22 a23.
Definition set_calibrationTimer (v : option nat) (p : Plugin) : Plugin :=
  let 'Build_Plugin a1 a2 a3 a4 a5 a6 a7 a8 a9 a10 _ a12 a13 a14 a15 a16 a17 a18 a19 a20 a21 a22 a23 := p in
  Build_Plugin a1 a2 a3 a4 a5 a6 a7 a8 a9 a10 v a12 a13 a14 a15 a16 a17 a18 a19 a20 a21 a22 a23.
Definition set_depths (v : list value) (p : Plugin) : Plugin :=
  let 'Build_Plugin a1 a2 a3 a4 a5 a6 a7 a8 a9 a10 a11 a12 _ a14 a15 a16 a17 a18 a19 a20 a21 a22 a23 := p in
  Build_Plugin a1 a2 a3 a4 a5 a6 a7 a8 a9 a10 a11 a12 v a14 a15 a16 a17 a18 a19 a20 a21 a22 a23.
Definition set_raf (v : option nat) (p : Plugin) : Plugin :=
  let 'Build_Plugin a1 a2 a3 a4 a5 a6 a7 a8 a9 a10 a11 a12 a13 _ a15 a16 a17 a18 a19 a20 a21 a22 a23 := p in
  Build_Plugin a1 a2 a3 a4 a5 a6 a7 a8 a9 a10 a11 a12 a13 v a15 a16 a17 a18 a19 a20 a21 a22 a23.
Definition set_ox (v : number) (p : Plugin) : Plugin :=
  let 'Build_Plugin a1 a2 a3 a4 a5 a6 a7 a8 a9 a10 a11 a12 a13 a14 a15 a16 a17 a18 a19 a20 _ a22 a23 := p in
  Build_Plugin a1 a2 a3 a4 a5 a6 a7 a8 a9 a10 a11 a12 a13 a14 a15 a16 a17 a18 a19 a20 v a22 a23.
Definition set_oy (v : number) (p : Plugin) : Plugin :=
  let 'Build_Plugin a1 a2 a3 a4 a5 a6 a7 a8 a9 a10 a11 a12 a13 a14 a15 a16 a17 a18 a19 a20 a21 _ a23 := p in
  Build_Plugin a1 a2 a3 a4 a5 a6 a7 a8 a9 a10 a11 a12 a13 a14 a15 a16 a17 a18 a19 a20 a21 v a23.

Definition set_handlers (v : nat) (w : Window) : Window :=
  let 'Build_Window a1 a2 _ a4 a5 a6 := w in Build_Window a1 a2 v a4 a5 a6.
Definition set_frames (v : list nat) (w : Window) : Window :=
  let 'Build_Window a1 a2 a3 _ a5 a6 := w in Build_Window a1 a2 a3 v a5 a6.
Definition set_timers (v : list (nat * value)) (w : Window) : Window :=
  let 'Build_Window a1 a2 a3 a4 _ a6 := w in Build_Window a1 a2 a3 a4 v a6.
Definition set_nextHandle (v : nat) (w : Window) : Window :=
  let 'Build_Window a1 a2 a3 a4 a5 _ := w in Build_Window a1 a2 a3 a4 a5 v.

Definition on_this (f : Plugin -> Plugin) (W : World) : World :=
  Build_World (f (this W)) (window W).

Definition setTimeout (delay : value) (w : Window) : nat * Window :=
  let h := nextHandle w in
  (h, set_nextHandle (S h) (set_timers (timers w ++ [(h, delay)]) w)).

Definition clearTimeout (h : option nat) (w : Window) : Window :=
  match h with
  | None => w
  | Some h => set_timers (filter (fun t => fst t ≠ h) (timers w)) w
  end.

Definition requestAnimationFrame (w : Window) : nat * Window :=
  let h := nextHandle w in
  (h, set_nextHandle (S h) (set_frames (frames w ++ [h]) w)).

Definition calibrate (delay : value) (W : World) : World :=
  let w := clearTimeout (calibrationTimer (this W)) (window W) in
  let '(h, w) := setTimeout delay w in
  Build_World (set_calibrationTimer (Some h) (this W)) w.

Definition enable (W : World) : World :=
  let w := set_handlers (S (handlers (window W))) (window W) in
  let '(h, w) := requestAnimationFrame w in
  Build_World (set_raf (Some h) (this W)) w.

(** [initialise()], without the styling. *)
Definition initialise (W : World) : World :=
  let W :=
    on_this (fun p =>
               set_depths (depths p ++ map (fun depth => JS.or depth zero) (layers p)) p)
            W in
  let W := enable W in
  calibrate (calibrationDelay (this W)) W.

Definition limit (x y : value) (p : Plugin) : Plugin :=
  let p := set_limitX (if JS.is_undefined x then limitX p else x) p in
  let p := set_limitY (if JS.is_undefined y then limitY p else y) p in
  p.

Definition Math_max (a b : value) : number :=
  JS.max (ToNumber a) (ToNumber b).

Definition Math_min (a b : value) : number :=
  JS.min (ToNumber a) (ToNumber b).

Definition clamp (value min max : value) : number :=
  let value := Math_max value min in
  let value := Math_min value max in
  value.

Record Command : Type := Build_Command {
  element : nat;
  x : number;
  y : number
}.

Definition setPosition (element : nat) (x y : number) : Command :=
  Build_Command element x y.

Definition onAnimationFrame (W : World) : World * list Command :=
  let dx := JS.sub (ToNumber (rx (this W))) (ToNumber (cx (this W))) in
  let dy := JS.sub (ToNumber (ry (this W))) (ToNumber (cy (this W))) in
  let W :=
    if JS.gt (JS.abs dx) (ToNumber (calibrationThreshold (this W)))
       || JS.gt (JS.abs dy) (ToNumber (calibrationThreshold (this W)))
    then calibrate zero W
    else W in
  let W :=
    if portrait (this W)
    then
      let W := on_this (set_ox (JS.mul dy (ToNumber (scalarX (this W))))) W in
      on_this (set_oy (JS.mul dx (ToNumber (scalarY (this W))))) W
    else
      let W := on_this (set_ox (JS.mul dx (ToNumber (scalarX (this W))))) W in
      on_this (set_oy (JS.mul dy (ToNumber (scalarY (this W))))) W in
  let W :=
    if negb (JS.isNaN (parseFloat (limitX (this W))))
    then on_this (set_ox (clamp (ox (this W))
                                (JS.neg (ToNumber (limitX (this W))))
                                (limitX (this W)))) W
    else W in
  let W :=
    if negb (JS.isNaN (parseFloat (limitY (this W))))
    then on_this (set_oy (clamp (oy (this W))
                                (JS.neg (ToNumber (limitY (this W))))
                                (limitY (this W)))) W
    else W in
  let commands :=
    imap (fun index (_ : value) =>
            let depth := default VUndefined (depths (this W) !! index) in
            let xOffset :=
              JS.mul (JS.mul (ox (this W)) (ToNumber depth))
                     (if JS.ToBoolean (invertX (this W)) then minusOne else one) in
            let yOffset :=
              JS.mul (JS.mul (oy (this W)) (ToNumber depth))
                     (if JS.ToBoolean (invertY (this W)) then minusOne else one) in
            setPosition index xOffset yOffset)
         (layers (this W)) in
  let '(h, w) := requestAnimationFrame (window W) in
  (Build_World (set_raf (Some h) (this W)) w, commands).

(** ** The vocabulary of the statements *)

(** The differences a frame starts from, and the offsets before the
    limits are applied. *)
Definition dx (p : Plugin) : number :=
  JS.sub (ToNumber (rx p)) (ToNumber (cx p)).

Definition dy (p : Plugin) : number :=
  JS.sub (ToNumber (ry p)) (ToNumber (cy p)).

Definition rawOffsets (p : Plugin) : number * number :=
  if portrait p
  then (JS.mul (dy p) (ToNumber (scalarX p)), JS.mul (dx p) (ToNumber (scalarY p)))
  else (JS.mul (dx p) (ToNumber (scalarX p)), JS.mul (dy p) (ToNumber (scalarY p))).

(** The value lies between [-L] and [L]. *)
Definition within (L v : number) : Prop :=
  JS.le (JS.neg L) v = true /\ JS.le v L = true.

(** The rotation sample and the bias are finite numbers. *)
Definition finiteSample (p : Plugin) : Prop :=
  JS.isFinite (ToNumber (rx p)) = true /\ JS.isFinite (ToNumber (cx p)) = true
  /\ JS.isFinite (ToNumber (ry p)) = true /\ JS.isFinite (ToNumber (cy p)) = true.

(** The raw offset of an axis is [NaN] exactly when the difference it
    is computed from overflowed and its scalar is zero. *)
Definition overflowTimesZero (difference : number) (scalar : value)
    (raw : number) : Prop :=
  JS.isNaN raw = true
  <-> JS.isFinite difference = false /\ JS.isZero (ToNumber scalar) = true.

(** ** Worlds for the examples *)

Definition half : number := Eval vm_compute in SFldexp prec emax one (-1).

(** An instance as the constructor has it when it calls
    [initialise()], over two layers of which the first has no depth
    attribute, but for the rotation [(rx, ry)], the bias [(cx, cy)],
    the scalars and the limits, which are those given; and the same
    once initialised. *)
Definition constructedWorld (rx ry cx cy scalarX scalarY : number)
    (limitX limitY : value) : World :=
    {| this :=
         {| transition := VString "all 0.5s cubic-bezier(0.165, 0.84, 0.44, 1)";
            calibrationThreshold := ofZ 100;
            calibrationDelay := ofZ 500;
            invertX := VBool true;
            invertY := VBool true;
            limitX := limitX;
            limitY := limitY;
            scalarX := scalarX;
            scalarY := scalarY;
            layers := [VUndefined; VNumber one];
            calibrationTimer := None;
            calibrationFlag := false;
            depths := [];
            raf := None;
            cx := cx; cy := cy; cz := zero;
            rx := rx; ry := ry; rz := zero;
            ox := zero; oy := zero;
            portrait := true |};
       window :=
         {| innerWidth := 600; innerHeight := 800; handlers := 0;
            frames := []; timers := []; nextHandle := 1 |} |}.

Definition exampleWorld (rx ry cx cy scalarX scalarY : number)
    (limitX limitY : value) : World :=
  initialise (constructedWorld rx ry cx cy scalarX scalarY limitX limitY).

End Program.

End IEEE.

(** * The plugin over exact numbers *)

Section Parallax.

Context {builtins : Builtins}.

Definition ToNumber (v : value) : number :=
  match v with
  | VUndefined => NaN
  | VNull => Num 0
  | VBool true => Num 1
  | VBool false => Num 0
  | VNumber n => n
  | VString s => StringToNumber s
  end.

Definition ToString (v : value) : string :=
  match v with
  | VUndefined => "undefined"
  | VNull => "null"
  | VBool true => "true"
  | VBool false => "false"
  | VNumber n => NumberToString n
  | VString s => s
  end.

(** [parseFloat(v)] parses [String(v)].  No prefix of "undefined",
    "null", "true" or "false" is a number; a number printed and parsed
    again is itself. *)
Definition parseFloat (v : value) : number :=
  match v with
  | VUndefined | VNull | VBool _ => NaN
  | VNumber n => n
  | VString s => parseFloatString s
  end.

(** ** The instance and the window

    [Plugin] is [this]: the nine settings composed by the constructor,
    the selection of layers, then the fields the constructor
    initialises under "States", "Calibration", "Rotation" and
    "Offset", and [portrait], read from the prototype until the first
    assignment.  A layer is represented by what [.data('depth')]
    returns for it; a handle that is [null] is [None]. *)

#[projections(primitive=yes)]
Record Plugin : Type := Build_Plugin {
  transition : value;
  calibrationThreshold : value;
  calibrationDelay : value;
  invertX : value;
  invertY : value;
  limitX : value;
  limitY : value;
  scalarX : value;
  scalarY : value;
  layers : list value;
  calibrationTimer : option nat;
  calibrationFlag : bool;
  depths : list value;
  raf : option nat;
  cx : value;
  cy : value;
  cz : value;
  rx : value;
  ry : value;
  rz : value;
  ox : number;
  oy : number;
  portrait : bool
}.

(** The part of the browser the plugin talks to: the viewport, the
    number of handlers bound to [deviceorientation], the pending
    animation-frame requests and timers (a timer with its delay), and
    the next free handle. *)
#[projections(primitive=yes)]
Record Window : Type := Build_Window {
  innerWidth : Z;
  innerHeight : Z;
  handlers : nat;
  frames : list nat;
  timers : list (nat * value);
  nextHandle : nat
}.

#[projections(primitive=yes)]
Record World : Type := Build_World {
  this : Plugin;
  window : Window
}.

(** Assignments to one field. *)
Definition set_invertX (v : value) (p : Plugin) : Plugin :=
  let 'Build_Plugin a1 a2 a3 _ a5 a6 a7 a8 a9 a10 a11 a12 a13 a14 a15 a16 a17 a18 a19 a20 a21 a22 a23 := p in
  Build_Plugin a1 a2 a3 v a5 a6 a7 a8 a9 a10 a11 a12 a13 a14 a15 a16 a17 a18 a19 a20 a21 a22 a23.
Definition set_invertY (v : value) (p : Plugin) : Plugin :=
  let 'Build_Plugin a1 a2 a3 a4 _ a6 a7 a8 a9 a10 a11 a12 a13 a14 a15 a16 a17 a18 a19 a20 a21 a22 a23 := p in
  Build_Plugin a1 a2 a3 a4 v a6 a7 a8 a9 a10 a11 a12 a13 a14 a15 a16 a17 a18 a19 a20 a21 a22 a23.
Definition set_limitX (v : value) (p : Plugin) : Plugin :=
  let 'Build_Plugin a1 a2 a3 a4 a5 _ a7 a8 a9 a10 a11 a12 a13 a14 a15 a16 a17 a18 a19 a20 a21 a22 a23 := p in
  Build_Plugin a1 a2 a3 a4 a5 v a7 a8 a9 a10 a11 a12 a13 a14 a15 a16 a17 a18 a19 a20 a21 a22 a23.
Definition set_limitY (v : value) (p : Plugin) : Plugin :=
  let 'Build_Plugin a1 a2 a3 a4 a5 a6 _ a8 a9 a10 a11 a12 a13 a14 a15 a16 a17 a18 a19 a20 a21 a22 a23 := p in
  Build_Plugin a1 a2 a3 a4 a5 a6 v a8 a9 a10 a11 a12 a13 a14 a15 a16 a17 a18 a19 a20 a21 a22 a23.
Definition set_scalarX (v : value) (p : Plugin) : Plugin :=
  let 'Build_Plugin a1 a2 a3 a4 a5 a6 a7 _ a9 a10 a11 a12 a13 a14 a15 a16 a17 a18 a19 a20 a21 a22 a23 := p in
  Build_Plugin a1 a2 a3 a4 a5 a6 a7 v a9 a10 a11 a12 a13 a14 a15 a16 a17 a18 a19 a20 a21 a22 a23.
Definition set_scalarY (v : value) (p : Plugin) : Plugin :=
  let 'Build_Plugin a1 a2 a3 a4 a5 a6 a7 a8 _ a10 a11 a12 a13 a14 a15 a16 a17 a18 a19 a20 a21 a22 a23 := p in
  Build_Plugin a1 a2 a3 a4 a5 a6 a7 a8 v a10 a11 a12 a13 a14 a15 a16 a17 a18 a19 a20 a21 a22 a23.
Definition set_calibrationTimer (v : option nat) (p : Plugin) : Plugin :=
  let 'Build_Plugin a1 a2 a3 a4 a5 a6 a7 a8 a9 a10 _ a12 a13 a14 a15 a16 a17 a18 a19 a20 a21 a22 a23 := p in
  Build_Plugin a1 a2 a3 a4 a5 a6 a7 a8 a9 a10 v a12 a13 a14 a15 a16 a17 a18 a19 a20 a21 a22 a23.
Definition set_calibrationFlag (v : bool) (p : Plugin) : Plugin :=
  let 'Build_Plugin a1 a2 a3 a4 a5 a6 a7 a8 a9 a10 a11 _ a13 a14 a15 a16 a17 a18 a19 a20 a21 a22 a23 := p in
  Build_Plugin a1 a2 a3 a4 a5 a6 a7 a8 a9 a10 a11 v a13 a14 a15 a16 a17 a18 a19 a20 a21 a22 a23.
Definition set_depths (v : list value) (p : Plugin) : Plugin :=
  let 'Build_Plugin a1 a2 a3 a4 a5 a6 a7 a8 a9 a10 a11 a12 _ a14 a15 a16 a17 a18 a19 a20 a21 a22 a23 := p in
  Build_Plugin a1 a2 a3 a4 a5 a6 a7 a8 a9 a10 a11 a12 v a14 a15 a16 a17 a18 a19 a20 a21 a22 a23.
Definition set_raf (v : option nat) (p : Plugin) : Plugin :=
  let 'Build_Plugin a1 a2 a3 a4 a5 a6 a7 a8 a9 a10 a11 a12 a13 _ a15 a16 a17 a18 a19 a20 a21 a22 a23 := p in
  Build_Plugin a1 a2 a3 a4 a5 a6 a7 a8 a9 a10 a11 a12 a13 v a15 a16 a17 a18 a19 a20 a21 a22 a23.
Definition set_cx (v : value) (p : Plugin) : Plugin :=
  let 'Build_Plugin a1 a2 a3 a4 a5 a6 a7 a8 a9 a10 a11 a12 a13 a14 _ a16 a17 a18 a19 a20 a21 a22 a23 := p in
  Build_Plugin a1 a2 a3 a4 a5 a6 a7 a8 a9 a10 a11 a12 a13 a14 v a16 a17 a18 a19 a20 a21 a22 a23.
Definition set_cy (v : value) (p : Plugin) : Plugin :=
  let 'Build_Plugin a1 a2 a3 a4 a5 a6 a7 a8 a9 a10 a11 a12 a13 a14 a15 _ a17 a18 a19 a20 a21 a22 a23 := p in
  Build_Plugin a1 a2 a3 a4 a5 a6 a7 a8 a9 a10 a11 a12 a13 a14 a15 v a17 a18 a19 a20 a21 a22 a23.
Definition set_cz (v : value) (p : Plugin) : Plugin :=
  let 'Build_Plugin a1 a2 a3 a4 a5 a6 a7 a8 a9 a10 a11 a12 a13 a14 a15 a16 _ a18 a19 a20 a21 a22 a23 := p in
  Build_Plugin a1 a2 a3 a4 a5 a6 a7 a8 a9 a10 a11 a12 a13 a14 a15 a16 v a18 a19 a20 a21 a22 a23.
Definition set_rx (v : value) (p : Plugin) : Plugin :=
  let 'Build_Plugin a1 a2 a3 a4 a5 a6 a7 a8 a9 a10 a11 a12 a13 a14 a15 a16 a17 _ a19 a20 a21 a22 a23 := p in
  Build_Plugin a1 a2 a3 a4 a5 a6 a7 a8 a9 a10 a11 a12 a13 a14 a15 a16 a17 v a19 a20 a21 a22 a23.
Definition set_ry (v : value) (p : Plugin) : Plugin :=
  let 'Build_Plugin a1 a2 a3 a4 a5 a6 a7 a8 a9 a10 a11 a12 a13 a14 a15 a16 a17 a18 _ a20 a21 a22 a23 := p in
  Build_Plugin a1 a2 a3 a4 a5 a6 a7 a8 a9 a10 a11 a12 a13 a14 a15 a16 a17 a18 v a20 a21 a22 a23.
Definition set_rz (v : value) (p : Plugin) : Plugin :=
  let 'Build_Plugin a1 a2 a3 a4 a5 a6 a7 a8 a9 a10 a11 a12 a13 a14 a15 a16 a17 a18 a19 _ a21 a22 a23 := p in
  Build_Plugin a1 a2 a3 a4 a5 a6 a7 a8 a9 a10 a11 a12 a13 a14 a15 a16 a17 a18 a19 v a21 a22 a23.
Definition set_ox (v : number) (p : Plugin) : Plugin :=
  let 'Build_Plugin a1 a2 a3 a4 a5 a6 a7 a8 a9 a10 a11 a12 a13 a14 a15 a16 a17 a18 a19 a20 _ a22 a23 := p in
  Build_Plugin a1 a2 a3 a4 a5 a6 a7 a8 a9 a10 a11 a12 a13 a14 a15 a16 a17 a18 a19 a20 v a22 a23.
Definition set_oy (v : number) (p : Plugin) : Plugin :=
  let 'Build_Plugin a1 a2 a3 a4 a5 a6 a7 a8 a9 a10 a11 a12 a13 a14 a15 a16 a17 a18 a19 a20 a21 _ a23 := p in
  Build_Plugin a1 a2 a3 a4 a5 a6 a7 a8 a9 a10 a11 a12 a13 a14 a15 a16 a17 a18 a19 a20 a21 v a23.
Definition set_portrait (v : bool) (p : Plugin) : Plugin :=
  let 'Build_Plugin a1 a2 a3 a4 a5 a6 a7 a8 a9 a10 a11 a12 a13 a14 a15 a16 a17 a18 a19 a20 a21 a22 _ := p in
  Build_Plugin a1 a2 a3 a4 a5 a6 a7 a8 a9 a10 a11 a12 a13 a14 a15 a16 a17 a18 a19 a20 a21 a22 v.

Definition set_handlers (v : nat) (w : Window) : Window :=
  let 'Build_Window a1 a2 _ a4 a5 a6 := w in Build_Window a1 a2 v a4 a5 a6.
Definition set_frames (v : list nat) (w : Window) : Window :=
  let 'Build_Window a1 a2 a3 _ a5 a6 := w in Build_Window a1 a2 a3 v a5 a6.
Definition set_timers (v : list (nat * value)) (w : Window) : Window :=
  let 'Build_Window a1 a2 a3 a4 _ a6 := w in Build_Window a1 a2 a3 a4 v a6.
Definition set_nextHandle (v : nat) (w : Window) : Window :=
  let 'Build_Window a1 a2 a3 a4 a5 _ := w in Build_Window a1 a2 a3 a4 a5 v.
Definition set_viewport (width height : Z) (w : Window) : Window :=
  let 'Build_Window _ _ a3 a4 a5 a6 := w in Build_Window width height a3 a4 a5 a6.

(** [on_this f] runs an assignment to [this]; [on_window f] one to the
    window. *)
Definition on_this (f : Plugin -> Plugin) (W : World) : World :=
  Build_World (f (this W)) (window W).
Definition on_window (f : Window -> Window) (W : World) : World :=
  Build_World (this W) (f (window W)).

(** ** Timers and animation frames *)

Definition setTimeout (delay : value) (w : Window) : nat * Window :=
  let h := nextHandle w in
  (h, set_nextHandle (S h) (set_timers (timers w ++ [(h, delay)]) w)).

Definition clearTimeout (h : option nat) (w : Window) : Window :=
  match h with
  | None => w
  | Some h => set_timers (filter (fun t => fst t ≠ h) (timers w)) w
  end.

Definition requestAnimationFrame (w : Window) : nat * Window :=
  let h := nextHandle w in
  (h, set_nextHandle (S h) (set_frames (frames w ++ [h]) w)).

Definition cancelAnimationFrame (h : option nat) (w : Window) : Window :=
  match h with
  | None => w
  | Some h => set_frames (filter (fun f => f ≠ h) (frames w)) w
  end.

(** ** The prototype methods *)

(** [calibrate(delay)]: the pending timer is cleared and a new one
    armed; the timer sets the calibration flag when it expires
    ([timeout] below). *)
Definition calibrate (delay : value) (W : World) : World :=
  let w := clearTimeout (calibrationTimer (this W)) (window W) in
  let '(h, w) := setTimeout delay w in
  Build_World (set_calibrationTimer (Some h) (this W)) w.

(** [enable()]: one more handler on [deviceorientation], one more
    frame request, whose handle is stored in [raf]. *)
Definition enable (W : World) : World :=
  let w := set_handlers (S (handlers (window W))) (window W) in
  let '(h, w) := requestAnimationFrame w in
  Build_World (set_raf (Some h) (this W)) w.

(** [disable()]: [.off] with the handler function removes every
    handler bound from it (the proxies made by [$.proxy] carry the
    identifier of the function they wrap); the request in [raf] is
    cancelled. *)
Definition disable (W : World) : World :=
  let w := set_handlers 0%nat (window W) in
  let w := cancelAnimationFrame (raf (this W)) w in
  Build_World (this W) w.

Definition invert (x y : value) (p : Plugin) : Plugin :=
  let p := set_invertX (if JS.is_undefined x then invertX p else x) p in
  let p := set_invertY (if JS.is_undefined y then invertY p else y) p in
  p.

Definition scalar (x y : value) (p : Plugin) : Plugin :=
  let p := set_scalarX (if JS.is_undefined x then scalarX p else x) p in
  let p := set_scalarY (if JS.is_undefined y then scalarY p else y) p in
  p.

Definition limit (x y : value) (p : Plugin) : Plugin :=
  let p := set_limitX (if JS.is_undefined x then limitX p else x) p in
  let p := set_limitY (if JS.is_undefined y then limitY p else y) p in
  p.

Definition Math_max (a b : value) : number :=
  JS.max (ToNumber a) (ToNumber b).

Definition Math_min (a b : value) : number :=
  JS.min (ToNumber a) (ToNumber b).

Definition clamp (value min max : value) : number :=
  let value := Math_max value min in
  let value := Math_min value max in
  value.

(** [setPosition(element, x, y)]: the positioning command a layer
    receives, in percent; [element] is the index of the layer.  Which
    style property carries it ([translate3d], [translate] or
    [left]/[top]) is the positioning strategy's business. *)
Record Command : Type := Build_Command {
  element : nat;
  x : number;
  y : number
}.

Definition setPosition (element : nat) (x y : number) : Command :=
  Build_Command element x y.

(** [onAnimationFrame()]: the new world and the positioning commands
    issued, in the order of the layers. *)
Definition onAnimationFrame (W : World) : World * list Command :=
  let dx := JS.sub (ToNumber (rx (this W))) (ToNumber (cx (this W))) in
  let dy := JS.sub (ToNumber (ry (this W))) (ToNumber (cy (this W))) in
  let W :=
    if JS.gt (JS.abs dx) (ToNumber (calibrationThreshold (this W)))
       || JS.gt (JS.abs dy) (ToNumber (calibrationThreshold (this W)))
    then calibrate (Num 0) W
    else W in
  let W :=
    if portrait (this W)
    then
      let W := on_this (set_ox (JS.mul dy (ToNumber (scalarX (this W))))) W in
      on_this (set_oy (JS.mul dx (ToNumber (scalarY (this W))))) W
    else
      let W := on_this (set_ox (JS.mul dx (ToNumber (scalarX (this W))))) W in
      on_this (set_oy (JS.mul dy (ToNumber (scalarY (this W))))) W in
  let W :=
    if negb (JS.isNaN (parseFloat (limitX (this W))))
    then on_this (set_ox (clamp (ox (this W))
                                (JS.neg (ToNumber (limitX (this W))))
                                (limitX (this W)))) W
    else W in
  let W :=
    if negb (JS.isNaN (parseFloat (limitY (this W))))
    then on_this (set_oy (clamp (oy (this W))
                                (JS.neg (ToNumber (limitY (this W))))
                                (limitY (this W)))) W
    else W in
  let commands :=
    imap (fun index (_ : value) =>
            let depth := default VUndefined (depths (this W) !! index) in
            let xOffset :=
              JS.mul (JS.mul (ox (this W)) (ToNumber depth))
                     (if JS.ToBoolean (invertX (this W)) then Num (-1) else Num 1) in
            let yOffset :=
              JS.mul (JS.mul (oy (this W)) (ToNumber depth))
                     (if JS.ToBoolean (invertY (this W)) then Num (-1) else Num 1) in
            setPosition index xOffset yOffset)
         (layers (this W)) in
  let '(h, w) := requestAnimationFrame (window W) in
  (Build_World (set_raf (Some h) (this W)) w, commands).

(** The event a handler of [deviceorientation] receives: a field that
    is missing reads [VUndefined]. *)
Record Event : Type := Build_Event {
  beta : value;
  gamma : value;
  alpha : value
}.

(** The three blocks of [onDeviceOrientation], under the names of
    their comments in the source. *)

(** "Detect Orientation Change" *)
Definition detectOrientationChange (W : World) : World :=
  let portrait' := (innerHeight (window W) >? innerWidth (window W))%Z in
  if negb (Bool.eqb (portrait (this W)) portrait')
  then
    let W := on_this (set_portrait portrait') W in
    on_this (set_calibrationFlag true) W
  else W.

(** "Set Calibration Rotation" *)
Definition setCalibrationRotation (x y z : value) (W : World) : World :=
  if calibrationFlag (this W)
  then
    let W := on_this (set_calibrationFlag false) W in
    let W := on_this (set_cx x) W in
    let W := on_this (set_cy y) W in
    on_this (set_cz z) W
  else W.

(** "Set Rotation" *)
Definition setRotation (x y z : value) (W : World) : World :=
  let W := on_this (set_rx x) W in
  let W := on_this (set_ry y) W in
  on_this (set_rz z) W.

Definition onDeviceOrientation (event : Event) (W : World) : World :=
  (* Extract Rotation *)
  let x := JS.or (beta event) (Num 0) in
  let y := JS.or (gamma event) (Num 0) in
  let z := JS.or (alpha event) (Num 0) in
  let W := detectOrientationChange W in
  let W := setCalibrationRotation x y z W in
  setRotation x y z W.

(** ** The constructor *)

Definition DEFAULTS : gmap string value :=
  {[ "transition" := VString "0.5s cubic-bezier(0.165, 0.84, 0.44, 1)";
     "calibrationThreshold" := VNumber (Num 100);
     "calibrationDelay" := VNumber (Num 500);
     "invertX" := VBool true;
     "invertY" := VBool true;
     "limitX" := VBool false;
     "limitY" := VBool false;
     "scalarX" := VNumber (Num (1 # 2));
     "scalarY" := VNumber (Num (1 # 2)) ]}.

(** "Data Extraction" and "Delete Null Data Values".  [attribute name]
    is what [this.$context.data(name)] returns, [VUndefined] when the
    container has no such attribute. *)
Definition extractData (attribute : string -> value) : gmap string value :=
  let data : gmap string value :=
    {[ "transition" := JS.or (attribute "transition") VNull;
       "invertX" := JS.or (attribute "invert-x") VNull;
       "invertY" := JS.or (attribute "invert-y") VNull;
       "limitX" := JS.or (parseFloat (attribute "limit-x")) VNull;
       "limitY" := JS.or (parseFloat (attribute "limit-y")) VNull;
       "scalarX" := JS.or (parseFloat (attribute "scalar-x")) VNull;
       "scalarY" := JS.or (parseFloat (attribute "scalar-y")) VNull ]} in
  filter (fun kv => snd kv ≠ VNull) data.

(** [$.extend(target, source1, ..., sourceN)]: every property of every
    source is copied onto the target, the sources in turn, a property
    whose value is [undefined] being skipped. *)
Definition extend (target : gmap string value)
    (sources : list (gmap string value)) : gmap string value :=
  foldl (fun target source =>
           filter (fun kv => snd kv ≠ VUndefined) source ∪ target)
        target sources.

(** "Compose Settings Object": the properties [$.extend] puts on
    [this]. *)
Definition composeSettings (options : gmap string value)
    (attribute : string -> value) : gmap string value :=
  extend ∅ [DEFAULTS; options; extractData attribute].

(** [this[key]] *)
Definition get (object : gmap string value) (key : string) : value :=
  default VUndefined (object !! key).

(** [initialise()], without the styling: the depths are cached, the
    instance enabled and the first calibration scheduled. *)
Definition initialise (W : World) : World :=
  let W :=
    on_this (fun p =>
               set_depths (depths p ++ map (fun depth => JS.or depth (Num 0)) (layers p)) p)
            W in
  let W := enable W in
  calibrate (calibrationDelay (this W)) W.

(** [new Plugin(element, options)]: [attribute] reads the container's
    declarative attributes, [layers] are the [.layer] elements below
    it, [w] is the window as the constructor finds it.  [options]
    holds settings: a key of [options] that names another property of
    the instance ([portrait], a method) is outside the model. *)
Definition Plugin_new (options : gmap string value)
    (attribute : string -> value) (layers : list value) (w : Window) : World :=
  let settings := composeSettings options attribute in
  let p :=
    {| transition := VString ("all " ++ ToString (get settings "transition"));
       calibrationThreshold := get settings "calibrationThreshold";
       calibrationDelay := get settings "calibrationDelay";
       invertX := get settings "invertX";
       invertY := get settings "invertY";
       limitX := get settings "limitX";
       limitY := get settings "limitY";
       scalarX := get settings "scalarX";
       scalarY := get settings "scalarY";
       layers := layers;
       calibrationTimer := None;
       calibrationFlag := true;
       depths := [];
       raf := None;
       cx := Num 0; cy := Num 0; cz := Num 0;
       rx := Num 0; ry := Num 0; rz := Num 0;
       ox := Num 0; oy := Num 0;
       portrait := true |} in
  initialise (Build_World p w).

(** ** The browser driving the instance *)

Inductive Input : Type :=
| DeviceOrientation (event : Event)
| AnimationFrame
| Timeout (h : nat)
| Resize (width height : Z)
| Enable
| Disable
| Invert (x y : value)
| Scalar (x y : value)
| Limit (x y : value).

(** Every handler bound to [deviceorientation] receives the event. *)
Definition deviceOrientation (event : Event) (W : World) : World :=
  Nat.iter (handlers (window W)) (onDeviceOrientation event) W.

(** The callbacks requested before the frame run in turn; what they
    request is for the next frame. *)
Definition frameLoop (acc : World * list Command) (callbacks : list nat)
  : World * list Command :=
  foldl (fun '(W, out) (_ : nat) =>
           let '(W, commands) := onAnimationFrame W in (W, out ++ commands))
        acc callbacks.

Definition animationFrame (W : World) : World * list Command :=
  let callbacks := frames (window W) in
  let W := on_window (set_frames []) W in
  frameLoop (W, []) callbacks.

(** A pending timer expires: its callback sets the calibration flag.
    The model has no clock: a pending timer may expire at any point of
    a run, whatever its delay. *)
Definition timeout (h : nat) (W : World) : World :=
  if existsb (fun t => Nat.eqb (fst t) h) (timers (window W))
  then
    let W := on_window (fun w => set_timers (filter (fun t => fst t ≠ h) (timers w)) w) W in
    on_this (set_calibrationFlag true) W
  else W.

Definition step (i : Input) (W : World) : World * list Command :=
  match i with
  | DeviceOrientation event => (deviceOrientation event W, [])
  | AnimationFrame => animationFrame W
  | Timeout h => (timeout h W, [])
  | Resize width height => (on_window (set_viewport width height) W, [])
  | Enable => (enable W, [])
  | Disable => (disable W, [])
  | Invert x y => (on_this (invert x y) W, [])
  | Scalar x y => (on_this (scalar x y) W, [])
  | Limit x y => (on_this (limit x y) W, [])
  end.

Fixpoint run (inputs : list Input) (W : World) : World * list Command :=
  match inputs with
  | [] => (W, [])
  | i :: inputs =>
      let '(W, out) := step i W in
      let '(W, out') := run inputs W in
      (W, out ++ out')
  end.

(** ** The plugin function

    [$.fn.parallax(value, ...)] on a selection of one container: the
    container is the source of the attributes and of the layers, and
    its data store keeps the instance under the name of the plugin.
    The container carries no [data-parallax] attribute, which
    [.data('parallax')] would read in the place of a missing
    instance. *)

Inductive Method : Type :=
| MEnable
| MDisable
| MInvert
| MScalar
| MLimit.

(** The first argument of the plugin function: nothing, an options
    object, the name of a method of [API], or a string that names no
    property of [API], its own or inherited ([API[value]] is
    [undefined] for it). *)
Inductive Argument : Type :=
| ANone
| AOptions (options : gmap string value)
| AMethod (m : Method)
| AString (s : string).

Record Container : Type := Build_Container {
  attributes : string -> value;
  layerElements : list value;
  data : option Plugin
}.

(** What [$.extend] finds in the argument: the properties of a string
    are its characters, under their indices, and none of them is a
    setting. *)
Definition optionsOf (argument : Argument) : gmap string value :=
  match argument with
  | AOptions options => options
  | _ => ∅
  end.

(** [plugin[value].apply(plugin, args)]: an argument that is missing is
    [undefined]. *)
Definition apply (m : Method) (args : list value) (W : World) : World :=
  let x := nth 0 args VUndefined in
  let y := nth 1 args VUndefined in
  match m with
  | MEnable => enable W
  | MDisable => disable W
  | MInvert => on_this (invert x y) W
  | MScalar => on_this (scalar x y) W
  | MLimit => on_this (limit x y) W
  end.

Definition parallax (argument : Argument) (args : list value)
    (c : Container) (w : Window) : Container * Window :=
  let W :=
    match data c with
    | Some plugin => Build_World plugin w
    | None => Plugin_new (optionsOf argument) (attributes c) (layerElements c) w
    end in
  let W :=
    match argument with
    | AMethod m => apply m args W
    | _ => W
    end in
  (Build_Container (attributes c) (layerElements c) (Some (this W)), window W).

(** ** Styles

    What the styling methods assign to [element.style], as the list of
    the assignments in the order they are made: a name and the value
    written under it. *)

Definition vendors : list (option string) :=
  [Some "O"; Some "ms"; Some "Moz"; Some "webkit"; None]%string.

Definition isAlphanumeric (c : Ascii.ascii) : bool :=
  let n := Ascii.nat_of_ascii c in
  ((48 <=? n) && (n <=? 57) || (65 <=? n) && (n <=? 90)
   || (97 <=? n) && (n <=? 122))%nat.

Definition toUpperCase (c : Ascii.ascii) : Ascii.ascii :=
  let n := Ascii.nat_of_ascii c in
  if ((97 <=? n) && (n <=? 122))%nat then Ascii.ascii_of_nat (n - 32) else c.

(** [$.camelCase(s)], as jQuery 1 and 2 define it: a leading "-ms-"
    becomes "ms-", then every dash followed by a letter or a digit is
    dropped and the character upper-cased. *)
Fixpoint camelCaseDashes (s : string) : string :=
  match s with
  | EmptyString => EmptyString
  | String a t =>
      if Ascii.eqb a "-"%char
      then
        match t with
        | String c rest =>
            if isAlphanumeric c
            then String (toUpperCase c) (camelCaseDashes rest)
            else String a (camelCaseDashes t)
        | EmptyString => String a EmptyString
        end
      else String a (camelCaseDashes t)
  end.

Definition camelCase (s : string) : string :=
  camelCaseDashes
    (if String.prefix "-ms-" s
     then ("ms-" ++ String.substring 4 (String.length s - 4) s)%string
     else s).

(** The name a property has for a vendor. *)
Definition vendorProperty (vendorPrefix : option string) (property : string)
  : string :=
  match vendorPrefix with
  | None => property
  | Some prefix => camelCase (prefix ++ "-" ++ property)
  end.

(** [transformSupport(value)].  [styleDefined name] tells whether the
    style of a new [div] has the property [name]; [probe3D] is the
    outcome of the layout test under the 3D media query, [None] in a
    document that has no body yet: [document.body.appendChild] throws
    there, and so does [transformSupport], for which [None] stands. *)
Definition propertySupport (styleDefined : string -> bool) : bool :=
  existsb (fun vendorPrefix => styleDefined (vendorProperty vendorPrefix "transform"))
          vendors.

Definition transformSupport (styleDefined : string -> bool)
    (probe3D : option bool) (value : value) : option bool :=
  match value with
  | VString s =>
      if String.eqb s "2D" then Some (propertySupport styleDefined)
      else if String.eqb s "3D"
           then (if propertySupport styleDefined then probe3D else Some false)
           else Some false
  | _ => Some false
  end.

(** [css(element, property, value)] *)
Definition css (property value : string) : list (string * string) :=
  map (fun vendorPrefix => (vendorProperty vendorPrefix property, value)) vendors.

(** [setPosition(element, x, y)] in full: what a positioning command
    assigns, given [transform3DSupport] and [transform2DSupport]. *)
Definition setPositionStyle (transform3DSupport transform2DSupport : bool)
    (c : Command) : list (string * string) :=
  let x := (NumberToString (x c) ++ "%")%string in
  let y := (NumberToString (y c) ++ "%")%string in
  if transform3DSupport
  then css "transform" ("translate3d(" ++ x ++ "," ++ y ++ ",0)")%string
  else if transform2DSupport
       then css "transform" ("translate(" ++ x ++ "," ++ y ++ ")")%string
       else [("left", x); ("top", y)]%string.

(** ** The vocabulary of the specification *)

Inductive OrientationMode : Type :=
| Portrait
| Landscape.

(** The mode the instance is in. *)
Definition mode (p : Plugin) : OrientationMode :=
  if portrait p then Portrait else Landscape.








(** [(invert ? -1 : 1)] *)
Definition sign (v : value) : number :=
  if JS.ToBoolean v then Num (-1) else Num 1.



(** The mode the specification derives from the viewport: "Landscape
    if width > height, else Portrait". *)
Definition specifiedMode (width height : Z) : OrientationMode :=
  if (width >? height)%Z then Landscape else Portrait.

(** What a frame never assigns: [this] without the fields
    [onAnimationFrame] and [calibrate] write. *)
Definition frameStable (p : Plugin) : Plugin :=
  set_raf None (set_oy NaN (set_ox NaN (set_calibrationTimer None p))).

(** What the declarative attributes contribute to a setting: the
    attribute behind the key, parsed for the limits and the scalars,
    when that is truthy; nothing otherwise, and nothing for the two
    calibration settings, which have no attribute. *)
Definition truthy (v : value) : option value :=
  if JS.ToBoolean v then Some v else None.

Definition fromAttribute (attribute : string -> value) (key : string)
  : option value :=
  if String.eqb key "transition" then truthy (attribute "transition")
  else if String.eqb key "invertX" then truthy (attribute "invert-x")
  else if String.eqb key "invertY" then truthy (attribute "invert-y")
  else if String.eqb key "limitX" then truthy (parseFloat (attribute "limit-x"))
  else if String.eqb key "limitY" then truthy (parseFloat (attribute "limit-y"))
  else if String.eqb key "scalarX" then truthy (parseFloat (attribute "scalar-x"))
  else if String.eqb key "scalarY" then truthy (parseFloat (attribute "scalar-y"))
  else None.

(** What the explicit options contribute: the property, unless it is
    missing or [undefined]. *)
Definition fromOptions (options : gmap string value) (key : string)
  : option value :=
  match options !! key with
  | Some v => if JS.is_undefined v then None else Some v
  | None => None
  end.

(** What setup fixes once and for all: the layers and their depths. *)
Definition setup (W : World) : list value * list value :=
  (layers (this W), depths (this W)).

(** Two worlds that differ in the z components at most are the same
    once [rz] and [cz] are erased; two inputs that differ in [alpha]
    at most are the same once [alpha] is. *)
Definition eraseZ (W : World) : World :=
  on_this (fun p => set_rz VUndefined (set_cz VUndefined p)) W.

Definition withZ (a b : value) (W : World) : World :=
  on_this (fun p => set_rz a (set_cz b p)) W.

(** An operation whose result, [rz] and [cz] apart, does not depend on
    the [rz] and [cz] it starts from. *)
Definition ignoresZ (f : World -> World) : Prop :=
  forall a b W, eraseZ (f (withZ a b W)) = eraseZ (f W).

Definition eraseAlpha (i : Input) : Input :=
  match i with
  | DeviceOrientation event =>
      DeviceOrientation (Build_Event (beta event) (gamma event) VUndefined)
  | _ => i
  end.

(** The calibration bias of the instance. *)
Definition bias (W : World) : value * value * value :=
  (cx (this W), cy (this W), cz (this W)).

(** ** The vocabulary of the further properties *)

(** The rotation an event gives: each field, or 0 when it is falsy. *)
Definition sample (event : Event) : value * value * value :=
  (JS.or (beta event) (Num 0), JS.or (gamma event) (Num 0),
   JS.or (alpha event) (Num 0)).

Definition rotation (W : World) : value * value * value :=
  (rx (this W), ry (this W), rz (this W)).

(** The stored mode is that of the viewport and the flag is clear. *)
Definition settled (W : World) : Prop :=
  calibrationFlag (this W) = false
  /\ portrait (this W) = (innerHeight (window W) >? innerWidth (window W))%Z.

(** A number that is not [NaN], as a value. *)
Definition isFinite (v : value) : bool :=
  match v with VNumber (Num _) => true | _ => false end.

(** An event as the browser delivers it: every angle is a number or is
    missing ([null] or [undefined]). *)
Definition angle (v : value) : bool :=
  match v with VNumber _ | VNull | VUndefined => true | _ => false end.

Definition deviceInput (i : Input) : Prop :=
  match i with
  | DeviceOrientation event =>
      angle (beta event) = true /\ angle (gamma event) = true
      /\ angle (alpha event) = true
  | _ => True
  end.

(** The rotation and the bias hold six numbers, none of them [NaN]. *)
Definition finiteAngles (W : World) : Prop :=
  isFinite (rx (this W)) = true /\ isFinite (ry (this W)) = true
  /\ isFinite (rz (this W)) = true /\ isFinite (cx (this W)) = true
  /\ isFinite (cy (this W)) = true /\ isFinite (cz (this W)) = true.

(** At most one timer is pending, the one [calibrationTimer] names. *)
Definition oneTimer (W : World) : Prop :=
  timers (window W) = []
  \/ exists h delay,
      timers (window W) = [(h, delay)] /\ calibrationTimer (this W) = Some h.

(** One frame request is pending, the one [raf] names. *)
Definition oneLoop (W : World) : Prop :=
  exists h, frames (window W) = [h] /\ raf (this W) = Some h.

(** No handler is bound and no frame is requested. *)
Definition stopped (W : World) : Prop :=
  handlers (window W) = 0%nat /\ frames (window W) = [].

Definition noEnableDisable (i : Input) : Prop :=
  match i with
  | Enable | Disable => False
  | _ => True
  end.

(** Two numbers that are equal, [NaN] being equal to itself here. *)
Definition numEquiv (a b : number) : Prop :=
  match a, b with
  | Num x, Num y => x == y
  | NaN, NaN => True
  | _, _ => False
  end.

(** A command is another with its [x] negated. *)
Definition xNegated (c c' : Command) : Prop :=
  element c' = element c /\ numEquiv (x c') (JS.neg (x c)) /\ y c' = y c.

(** The raw offsets of a frame: the differences, crossed in portrait,
    times the scalars. *)
Definition rawOffsets (W : World) : number * number :=
  let p := this W in
  let dx := JS.sub (ToNumber (rx p)) (ToNumber (cx p)) in
  let dy := JS.sub (ToNumber (ry p)) (ToNumber (cy p)) in
  (JS.mul (if portrait p then dy else dx) (ToNumber (scalarX p)),
   JS.mul (if portrait p then dx else dy) (ToNumber (scalarY p))).

(** The names under which [css] writes the property [transform]. *)
Definition transformNames : list string :=
  ["OTransform"; "msTransform"; "MozTransform"; "webkitTransform";
   "transform"]%string.

(** ** Worlds for the examples *)

Definition landscapeWindow : Window := Build_Window 800 600 0 [] [] 1.
Definition portraitWindow : Window := Build_Window 600 800 0 [] [] 1.
Definition squareWindow : Window := Build_Window 600 600 0 [] [] 1.

(** A container without attributes, constructed with the default
    options over two layers: the first without a depth, the second of
    depth 1. *)
Definition exampleWorld (w : Window) : World :=
  Plugin_new ∅ (fun _ => VUndefined) [VUndefined; VNumber (Num 1)] w.

Definition tilt (b g a : Q) : Event :=
  Build_Event (Num b) (Num g) (Num a).

(** The same after two orientation events: the first is captured as the
    bias (10, 20, 0), the second is the sample (15, 25, 0). *)
Definition calibratedWorld (w : Window) : World :=
  fst (run [DeviceOrientation (tilt 10 20 0); DeviceOrientation (tilt 15 25 0)]
           (exampleWorld w)).

(** The bias captured and nothing else: the sample is the bias. *)
Definition restingWorld (w : Window) : World :=
  fst (run [DeviceOrientation (tilt 10 20 0)] (exampleWorld w)).

(** [scalarX] set to 2 and [limitX] to [L]: the raw [ox] of the
    calibrated world is then 10 in portrait. *)
Definition limitedWorld (L : Q) (w : Window) : World :=
  fst (run [Scalar (Num 2) VUndefined; Limit (Num L) VUndefined]
           (calibratedWorld w)).



(** A container without attributes and without an instance. *)
Definition exampleContainer : Container :=
  Build_Container (fun _ => VUndefined) [VUndefined; VNumber (Num 1)] None.

(** A style that has the property [transform] under the name of one
    vendor only. *)
Definition webkitOnly (name : string) : bool :=
  String.eqb name "webkitTransform".

(** The options and the attribute of the precedence example: [scalarX]
    is 2 by option and 3 by attribute. *)
Definition exampleOptions : gmap string value :=
  {[ "scalarX" := VNumber (Num 2) ]}.

Definition exampleAttribute (name : string) : value :=
  if String.eqb name "scalar-x" then VNumber (Num 3) else VUndefined.

(** * Properties *)

(** ** The assignments *)

(** Every assignment writes the field of its name and no other: the
    field reads the value written, and writing back what a field holds
    changes nothing. *)
Lemma assignments (p : Plugin) (v : value) (n : number) (b : bool)
    (h : option nat) (l : list value) :
  (invertX (set_invertX v p) = v /\ set_invertX (invertX p) p = p)
  /\ (invertY (set_invertY v p) = v /\ set_invertY (invertY p) p = p)
  /\ (limitX (set_limitX v p) = v /\ set_limitX (limitX p) p = p)
  /\ (limitY (set_limitY v p) = v /\ set_limitY (limitY p) p = p)
  /\ (scalarX (set_scalarX v p) = v /\ set_scalarX (scalarX p) p = p)
  /\ (scalarY (set_scalarY v p) = v /\ set_scalarY (scalarY p) p = p)
  /\ (calibrationTimer (set_calibrationTimer h p) = h
      /\ set_calibrationTimer (calibrationTimer p) p = p)
  /\ (calibrationFlag (set_calibrationFlag b p) = b
      /\ set_calibrationFlag (calibrationFlag p) p = p)
  /\ (depths (set_depths l p) = l /\ set_depths (depths p) p = p)
  /\ (raf (set_raf h p) = h /\ set_raf (raf p) p = p)
  /\ (cx (set_cx v p) = v /\ set_cx (cx p) p = p)
  /\ (cy (set_cy v p) = v /\ set_cy (cy p) p = p)
  /\ (cz (set_cz v p) = v /\ set_cz (cz p) p = p)
  /\ (rx (set_rx v p) = v /\ set_rx (rx p) p = p)
  /\ (ry (set_ry v p) = v /\ set_ry (ry p) p = p)
  /\ (rz (set_rz v p) = v /\ set_rz (rz p) p = p)
  /\ (ox (set_ox n p) = n /\ set_ox (ox p) p = p)
  /\ (oy (set_oy n p) = n /\ set_oy (oy p) p = p)
  /\ (portrait (set_portrait b p) = b /\ set_portrait (portrait p) p = p).
Proof. repeat split. Qed.

(** ** Arithmetic of the model *)





(** ** What one frame computes *)

Lemma calibrate_this delay W :
  this (calibrate delay W)
  = set_calibrationTimer (Some (nextHandle (window W))) (this W).
Proof.
  unfold calibrate. destruct (calibrationTimer (this W)); reflexivity.
Qed.

(** [onAnimationFrame] in one piece: the offsets are computed from the
    state the frame starts in (the recalibration it may schedule
    touches the timer only), and every layer is positioned from
    them. *)
Lemma onAnimationFrame_unfold W :
  let p := this W in
  let dx := JS.sub (ToNumber (rx p)) (ToNumber (cx p)) in
  let dy := JS.sub (ToNumber (ry p)) (ToNumber (cy p)) in
  let W1 :=
    if JS.gt (JS.abs dx) (ToNumber (calibrationThreshold p))
       || JS.gt (JS.abs dy) (ToNumber (calibrationThreshold p))
    then calibrate (Num 0) W else W in
  let ox_raw := JS.mul (if portrait p then dy else dx) (ToNumber (scalarX p)) in
  let oy_raw := JS.mul (if portrait p then dx else dy) (ToNumber (scalarY p)) in
  let ox' := if negb (JS.isNaN (parseFloat (limitX p)))
             then clamp ox_raw (JS.neg (ToNumber (limitX p))) (limitX p)
             else ox_raw in
  let oy' := if negb (JS.isNaN (parseFloat (limitY p)))
             then clamp oy_raw (JS.neg (ToNumber (limitY p))) (limitY p)
             else oy_raw in
  onAnimationFrame W
  = (Build_World
       (set_raf (Some (nextHandle (window W1)))
                (set_oy oy' (set_ox ox' (this W1))))
       (snd (requestAnimationFrame (window W1))),
     imap (fun index (_ : value) =>
             let depth := default VUndefined (depths p !! index) in
             setPosition index
               (JS.mul (JS.mul ox' (ToNumber depth)) (sign (invertX p)))
               (JS.mul (JS.mul oy' (ToNumber depth)) (sign (invertY p))))
          (layers p)).
Proof.
  destruct W as [p w]; destruct p, w.
  unfold onAnimationFrame, calibrate, sign. cbv zeta.
  destruct (JS.gt _ _ || JS.gt _ _); cbn -[clamp JS.sub JS.mul JS.gt JS.abs];
  destruct portrait0; cbn -[clamp JS.sub JS.mul JS.gt JS.abs];
  destruct (JS.isNaN (parseFloat limitX0)); cbn -[clamp JS.sub JS.mul JS.gt JS.abs];
  destruct (JS.isNaN (parseFloat limitY0)); cbn -[clamp JS.sub JS.mul JS.gt JS.abs];
  reflexivity.
Qed.

Lemma onAnimationFrame_offsets W :
  let p := this W in
  let p' := this (fst (onAnimationFrame W)) in
  let dx := JS.sub (ToNumber (rx p)) (ToNumber (cx p)) in
  let dy := JS.sub (ToNumber (ry p)) (ToNumber (cy p)) in
  let ox_raw := JS.mul (if portrait p then dy else dx) (ToNumber (scalarX p)) in
  let oy_raw := JS.mul (if portrait p then dx else dy) (ToNumber (scalarY p)) in
  ox p' = (if negb (JS.isNaN (parseFloat (limitX p)))
           then clamp ox_raw (JS.neg (ToNumber (limitX p))) (limitX p)
           else ox_raw)
  /\ oy p' = (if negb (JS.isNaN (parseFloat (limitY p)))
              then clamp oy_raw (JS.neg (ToNumber (limitY p))) (limitY p)
              else oy_raw).
Proof.
  cbv zeta. rewrite onAnimationFrame_unfold. split; reflexivity.
Qed.









(** ** The orientation handler *)

Lemma detectOrientationChange_portrait W :
  portrait (this (detectOrientationChange W))
  = (innerHeight (window W) >? innerWidth (window W))%Z.
Proof.
  unfold detectOrientationChange.
  destruct (portrait (this W)) eqn:Hp,
           (innerHeight (window W) >? innerWidth (window W))%Z eqn:Hv;
    cbn; rewrite ?Hp; reflexivity.
Qed.

Lemma setCalibrationRotation_portrait x y z W :
  portrait (this (setCalibrationRotation x y z W)) = portrait (this W).
Proof.
  unfold setCalibrationRotation. destruct (calibrationFlag (this W)); reflexivity.
Qed.

Lemma setCalibrationRotation_flag x y z W :
  calibrationFlag (this (setCalibrationRotation x y z W)) = false.
Proof.
  unfold setCalibrationRotation.
  destruct (calibrationFlag (this W)) eqn:Hf; cbn; [reflexivity | exact Hf].
Qed.

Lemma setCalibrationRotation_clear x y z W :
  calibrationFlag (this W) = false -> setCalibrationRotation x y z W = W.
Proof.
  unfold setCalibrationRotation. intros ->. reflexivity.
Qed.

Lemma setCalibrationRotation_set x y z W :
  calibrationFlag (this W) = true ->
  bias (setCalibrationRotation x y z W) = (x, y, z).
Proof.
  unfold setCalibrationRotation. intros ->. reflexivity.
Qed.

Lemma onDeviceOrientation_flag event W :
  calibrationFlag (this (onDeviceOrientation event W)) = false.
Proof.
  unfold onDeviceOrientation, setRotation. cbn.
  apply setCalibrationRotation_flag.
Qed.

Lemma onDeviceOrientation_window event W :
  window (onDeviceOrientation event W) = window W.
Proof.
  unfold onDeviceOrientation, setRotation, setCalibrationRotation,
    detectOrientationChange.
  repeat match goal with |- context [if ?c then _ else _] => destruct c end;
    reflexivity.
Qed.

Lemma onDeviceOrientation_portrait event W :
  portrait (this (onDeviceOrientation event W))
  = (innerHeight (window W) >? innerWidth (window W))%Z.
Proof.
  unfold onDeviceOrientation, setRotation. cbn.
  rewrite setCalibrationRotation_portrait.
  apply detectOrientationChange_portrait.
Qed.

Lemma onDeviceOrientation_bias event W :
  bias (onDeviceOrientation event W)
  = bias (setCalibrationRotation (JS.or (beta event) (Num 0))
                                 (JS.or (gamma event) (Num 0))
                                 (JS.or (alpha event) (Num 0))
                                 (detectOrientationChange W)).
Proof. reflexivity. Qed.

(** A handler that runs in a world whose flag is clear and whose
    stored mode is that of the viewport captures nothing. *)
Lemma onDeviceOrientation_settled event W :
  calibrationFlag (this W) = false ->
  portrait (this W) = (innerHeight (window W) >? innerWidth (window W))%Z ->
  bias (onDeviceOrientation event W) = bias W.
Proof.
  intros Hf Hp. rewrite onDeviceOrientation_bias.
  assert (detectOrientationChange W = W) as ->.
  { unfold detectOrientationChange. rewrite <- Hp.
    destruct (portrait (this W)); reflexivity. }
  rewrite setCalibrationRotation_clear; [reflexivity | exact Hf].
Qed.

(** C4 (amended).  Each time the handler processes a sample, the mode
    it stores is Portrait when the viewport is taller than wide and
    Landscape otherwise: Landscape when the width exceeds the height
    and also when the two are equal. *)
Theorem orientation_mode_from_viewport event W :
  mode (this (onDeviceOrientation event W))
  = match (innerWidth (window W) ?= innerHeight (window W))%Z with
    | Lt => Portrait
    | Eq => Landscape
    | Gt => Landscape
    end.
Proof.
  unfold mode. rewrite onDeviceOrientation_portrait.
  rewrite Z.gtb_ltb. unfold Z.ltb.
  destruct (innerWidth (window W) ?= innerHeight (window W))%Z; reflexivity.
Qed.

(** ** Frames and the loop *)

Lemma calibrate_frames delay W :
  frames (window (calibrate delay W)) = frames (window W).
Proof.
  unfold calibrate. destruct (calibrationTimer (this W)); reflexivity.
Qed.

Lemma onAnimationFrame_stable W :
  frameStable (this (fst (onAnimationFrame W))) = frameStable (this W).
Proof.
  rewrite onAnimationFrame_unfold. cbv zeta.
  destruct (JS.gt _ _ || JS.gt _ _); rewrite ?calibrate_this; reflexivity.
Qed.

Lemma onAnimationFrame_layers W :
  layers (this (fst (onAnimationFrame W))) = layers (this W).
Proof.
  change (layers (frameStable (this (fst (onAnimationFrame W))))
          = layers (frameStable (this W))).
  rewrite onAnimationFrame_stable. reflexivity.
Qed.

Lemma onAnimationFrame_frames W :
  exists h, frames (window (fst (onAnimationFrame W))) = frames (window W) ++ [h].
Proof.
  rewrite onAnimationFrame_unfold. cbv zeta.
  destruct (JS.gt _ _ || JS.gt _ _); cbn; [|eauto].
  destruct (calibrationTimer (this W)); cbn; eauto.
Qed.

Lemma onAnimationFrame_commands W :
  length (snd (onAnimationFrame W)) = length (layers (this W)).
Proof.
  rewrite onAnimationFrame_unfold. cbv zeta. cbn [snd]. apply length_imap.
Qed.

Lemma frameLoop_counts callbacks : forall V out,
  let r := frameLoop (V, out) callbacks in
  length (snd r) = (length out + length callbacks * length (layers (this V)))%nat
  /\ length (frames (window (fst r)))
     = (length (frames (window V)) + length callbacks)%nat
  /\ frameStable (this (fst r)) = frameStable (this V).
Proof.
  induction callbacks as [|c callbacks IH]; intros V out; cbn zeta.
  - cbn. repeat split; lia.
  - unfold frameLoop. cbn [foldl].
    destruct (onAnimationFrame V) as [V' commands] eqn:HV.
    specialize (IH V' (out ++ commands)). cbv zeta in IH.
    unfold frameLoop in IH. destruct IH as (IH1 & IH2 & IH3).
    pose proof (onAnimationFrame_layers V) as Hl.
    pose proof (onAnimationFrame_commands V) as Hc.
    pose proof (onAnimationFrame_stable V) as Hs.
    destruct (onAnimationFrame_frames V) as [h Hf].
    rewrite HV in Hl, Hc, Hs, Hf. cbn [fst snd] in Hl, Hc, Hs, Hf.
    rewrite IH1, IH2, IH3, Hl, Hf, Hs, !length_app, Hc. cbn [length].
    repeat split; lia.
Qed.

(** C3 (amended).  [enable()] has no guard: every call binds one more
    handler to [deviceorientation] and requests one more animation
    frame, keeping the newest handle in [raf]; and a frame runs every
    pending request once, each run positioning every layer and
    requesting the next frame, so that the loops a repeated [enable()]
    starts never merge. *)
Theorem enable_stacks W :
  handlers (window (enable W)) = S (handlers (window W))
  /\ frames (window (enable W)) = frames (window W) ++ [nextHandle (window W)]
  /\ raf (this (enable W)) = Some (nextHandle (window W))
  /\ length (snd (animationFrame W))
     = (length (frames (window W)) * length (layers (this W)))%nat
  /\ length (frames (window (fst (animationFrame W))))
     = length (frames (window W)).
Proof.
  repeat split.
  - pose proof (frameLoop_counts (frames (window W))
                  (on_window (set_frames []) W) []) as (H & _ & _).
    exact H.
  - pose proof (frameLoop_counts (frames (window W))
                  (on_window (set_frames []) W) []) as (_ & H & _).
    exact H.
Qed.

Lemma animationFrame_bias W : bias (fst (animationFrame W)) = bias W.
Proof.
  pose proof (frameLoop_counts (frames (window W))
                (on_window (set_frames []) W) []) as (_ & _ & H).
  change (bias (fst (animationFrame W)))
    with (cx (frameStable (this (fst (animationFrame W)))),
          cy (frameStable (this (fst (animationFrame W)))),
          cz (frameStable (this (fst (animationFrame W))))).
  unfold animationFrame. rewrite H. reflexivity.
Qed.

Lemma step_bias W i :
  (forall e, i <> DeviceOrientation e) -> bias (fst (step i W)) = bias W.
Proof.
  intros Hi. destruct i; cbn [step fst];
    [ exfalso; eapply Hi; reflexivity
    | apply animationFrame_bias
    | unfold timeout; destruct (existsb _ _); reflexivity
    | reflexivity .. ].
Qed.

(** C7.  The bias changes only in a handler run whose capture block
    finds the calibration flag set; that run leaves the flag clear;
    when the block finds the flag clear the bias is unchanged; and
    no input other than an orientation event touches the bias; and
    once a run has ended, the runs that follow capture nothing until
    the flag is set again: a setting of the flag gives one capture at
    most. *)
Theorem calibration_capture_once event W :
  let x := JS.or (beta event) (Num 0) in
  let y := JS.or (gamma event) (Num 0) in
  let z := JS.or (alpha event) (Num 0) in
  (* the capture block, lines 271-277 *)
  (forall V, calibrationFlag (this V) = false ->
             bias (setCalibrationRotation x y z V) = bias V)
  /\ (forall V, calibrationFlag (this V) = true ->
                bias (setCalibrationRotation x y z V) = (x, y, z))
  /\ (forall V, calibrationFlag (this (setCalibrationRotation x y z V)) = false)
  (* the whole handler *)
  /\ (bias (onDeviceOrientation event W) <> bias W ->
      calibrationFlag (this (detectOrientationChange W)) = true)
  /\ (calibrationFlag (this W) = false ->
      portrait (this W) = (innerHeight (window W) >? innerWidth (window W))%Z ->
      bias (onDeviceOrientation event W) = bias W)
  /\ calibrationFlag (this (onDeviceOrientation event W)) = false
  /\ (forall i, (forall e, i <> DeviceOrientation e) ->
                bias (fst (step i W)) = bias W)
  /\ (forall events,
        bias (foldl (fun V e => onDeviceOrientation e V)
                    (onDeviceOrientation event W) events)
        = bias (onDeviceOrientation event W)).
Proof.
  cbv zeta. repeat split.
  - intros V HV. rewrite setCalibrationRotation_clear; [reflexivity | exact HV].
  - intros V HV. apply setCalibrationRotation_set, HV.
  - intros V. apply setCalibrationRotation_flag.
  - intros Hchg.
    destruct (calibrationFlag (this (detectOrientationChange W))) eqn:Hf;
      [reflexivity|].
    exfalso. apply Hchg. rewrite onDeviceOrientation_bias.
    rewrite setCalibrationRotation_clear; [|exact Hf].
    unfold detectOrientationChange.
    destruct (negb _); reflexivity.
  - apply onDeviceOrientation_settled.
  - apply onDeviceOrientation_flag.
  - apply step_bias.
  - intros events.
    assert (Hinv : calibrationFlag (this (onDeviceOrientation event W)) = false
                   /\ portrait (this (onDeviceOrientation event W))
                      = (innerHeight (window (onDeviceOrientation event W))
                         >? innerWidth (window (onDeviceOrientation event W)))%Z).
    { split; [apply onDeviceOrientation_flag|].
      rewrite onDeviceOrientation_window. apply onDeviceOrientation_portrait. }
    revert Hinv. generalize (onDeviceOrientation event W) as V.
    induction events as [|e events IH]; intros V [Hf Hp]; [reflexivity|].
    cbn [foldl]. rewrite IH.
    + apply onDeviceOrientation_settled; assumption.
    + split; [apply onDeviceOrientation_flag|].
      rewrite onDeviceOrientation_window. apply onDeviceOrientation_portrait.
Qed.

(** ** The settings *)

Lemma get_union (m1 m2 : gmap string value) key :
  get (m1 ∪ m2) key = match m1 !! key with Some v => v | None => get m2 key end.
Proof.
  unfold get. rewrite lookup_union.
  destruct (m1 !! key), (m2 !! key); reflexivity.
Qed.

Lemma lookup_defined (m : gmap string value) key :
  filter (fun kv => snd kv ≠ VUndefined) m !! key = fromOptions m key.
Proof.
  unfold fromOptions. rewrite map_lookup_filter.
  destruct (m !! key) as [v|]; [|reflexivity]. cbn.
  destruct v; reflexivity.
Qed.

Lemma or_null (v : value) :
  (guard (JS.or v VNull ≠ VNull);; Some (JS.or v VNull)) = truthy v.
Proof.
  unfold JS.or, truthy. destruct (JS.ToBoolean v) eqn:Hv.
  - rewrite option_guard_True; [reflexivity|].
    intros ->. discriminate Hv.
  - rewrite option_guard_False; [reflexivity | auto].
Qed.

Lemma lookup_extractData attribute key :
  extractData attribute !! key = fromAttribute attribute key.
Proof.
  unfold extractData, fromAttribute. rewrite map_lookup_filter.
  repeat match goal with
         | |- context [String.eqb key ?k] =>
             destruct (String.eqb_spec key k) as [->|?];
             [ repeat (rewrite lookup_insert_ne by done);
               first [rewrite lookup_insert_eq | rewrite lookup_singleton_eq];
               apply or_null
             | ]
         end.
  repeat (rewrite lookup_insert_ne by done).
  rewrite lookup_singleton_ne by done. reflexivity.
Qed.

Lemma fromAttribute_truthy attribute key v :
  fromAttribute attribute key = Some v -> JS.ToBoolean v = true.
Proof.
  unfold fromAttribute, truthy.
  repeat match goal with
         | |- context [String.eqb key ?k] => destruct (String.eqb key k)
         | |- context [if JS.ToBoolean ?a then _ else _] =>
             destruct (JS.ToBoolean a) eqn:?
         end; congruence.
Qed.

Lemma extractData_defined attribute key :
  fromOptions (extractData attribute) key = fromAttribute attribute key.
Proof.
  unfold fromOptions. rewrite lookup_extractData.
  destruct (fromAttribute attribute key) as [v|] eqn:Hv; [|reflexivity].
  apply fromAttribute_truthy in Hv. destruct v; try reflexivity; discriminate Hv.
Qed.

Lemma DEFAULTS_defined :
  filter (fun kv : string * value => snd kv ≠ VUndefined) DEFAULTS = DEFAULTS.
Proof.
  apply map_filter_id. intros key v Hv Hundef. cbn in Hundef. subst v.
  unfold DEFAULTS in Hv.
  repeat (apply lookup_insert_Some in Hv as [[_ Hv]|[_ Hv]]; [discriminate|]).
  apply lookup_singleton_Some in Hv as [_ Hv]. discriminate.
Qed.

Lemma fromOptions_DEFAULTS key : fromOptions DEFAULTS key = DEFAULTS !! key.
Proof. rewrite <- lookup_defined, DEFAULTS_defined. reflexivity. Qed.

(** The composed settings, key by key: the attribute when it
    contributes, else the option when it does, else the default. *)
Lemma composeSettings_get options attribute key :
  get (composeSettings options attribute) key
  = match fromAttribute attribute key with
    | Some v => v
    | None =>
        match fromOptions options key with
        | Some v => v
        | None => get DEFAULTS key
        end
    end.
Proof.
  unfold composeSettings, extend. cbn [foldl].
  rewrite !get_union, !lookup_defined, extractData_defined, fromOptions_DEFAULTS.
  destruct (fromAttribute attribute key); [reflexivity|].
  destruct (fromOptions options key); [reflexivity|].
  unfold get. destruct (DEFAULTS !! key); reflexivity.
Qed.

(** C2 (amended).  A setting of the constructed instance is the value
    of its declarative attribute when that value (parsed, for the
    limits and the scalars) is truthy; otherwise the explicit option,
    when one is given and is not [undefined]; otherwise the default.
    The attribute therefore takes precedence over the option, and an
    attribute that is absent, falsy or not a number overrides
    nothing.  ([transition] is stored behind the prefix "all ".) *)
Theorem settings_precedence options attribute layers0 w :
  let settings := composeSettings options attribute in
  let p := this (Plugin_new options attribute layers0 w) in
  (forall key,
      get settings key
      = match fromAttribute attribute key with
        | Some v => v
        | None =>
            match fromOptions options key with
            | Some v => v
            | None => get DEFAULTS key
            end
        end)
  /\ transition p = VString ("all " ++ ToString (get settings "transition"))
  /\ calibrationThreshold p = get settings "calibrationThreshold"
  /\ calibrationDelay p = get settings "calibrationDelay"
  /\ invertX p = get settings "invertX"
  /\ invertY p = get settings "invertY"
  /\ limitX p = get settings "limitX"
  /\ limitY p = get settings "limitY"
  /\ scalarX p = get settings "scalarX"
  /\ scalarY p = get settings "scalarY".
Proof.
  cbv zeta. split; [apply composeSettings_get|].
  repeat split; reflexivity.
Qed.

(** ** Layers and depths *)

Lemma onDeviceOrientation_setup event W :
  setup (onDeviceOrientation event W) = setup W.
Proof.
  unfold onDeviceOrientation, setRotation, setCalibrationRotation,
    detectOrientationChange.
  repeat match goal with |- context [if ?c then _ else _] => destruct c end;
    reflexivity.
Qed.

Lemma deviceOrientation_setup event W :
  setup (deviceOrientation event W) = setup W.
Proof.
  unfold deviceOrientation. generalize (handlers (window W)) as n.
  induction n as [|n IH]; [reflexivity|].
  rewrite Nat.iter_succ, onDeviceOrientation_setup. exact IH.
Qed.

Lemma animationFrame_setup W :
  setup (fst (animationFrame W)) = setup W.
Proof.
  pose proof (frameLoop_counts (frames (window W))
                (on_window (set_frames []) W) []) as (_ & _ & H).
  change (setup (fst (animationFrame W)))
    with (layers (frameStable (this (fst (animationFrame W)))),
          depths (frameStable (this (fst (animationFrame W))))).
  unfold animationFrame. rewrite H. reflexivity.
Qed.

Lemma step_setup i W : setup (fst (step i W)) = setup W.
Proof.
  destruct i; cbn [step fst];
    [ apply deviceOrientation_setup
    | apply animationFrame_setup
    | unfold timeout; destruct (existsb _ _); reflexivity
    | reflexivity .. ].
Qed.

Lemma run_setup inputs : forall W, setup (fst (run inputs W)) = setup W.
Proof.
  induction inputs as [|i inputs IH]; intros W; [reflexivity|].
  cbn [run]. destruct (step i W) as [V out] eqn:Hstep.
  specialize (IH V). destruct (run inputs V) as [V' out'].
  cbn [fst] in *. rewrite IH.
  change V with (fst (V, out)). rewrite <- Hstep. apply step_setup.
Qed.

Lemma Plugin_new_setup options attribute layers0 w :
  setup (Plugin_new options attribute layers0 w)
  = (layers0, map (fun depth => JS.or depth (Num 0)) layers0).
Proof. reflexivity. Qed.

Lemma onAnimationFrame_setup W :
  setup (fst (onAnimationFrame W)) = setup W.
Proof.
  change (setup (fst (onAnimationFrame W)))
    with (layers (frameStable (this (fst (onAnimationFrame W)))),
          depths (frameStable (this (fst (onAnimationFrame W))))).
  rewrite onAnimationFrame_stable. reflexivity.
Qed.

(** ** The z components *)

Ltac destruct_world W :=
  let p := fresh "p" in
  let w := fresh "w" in
  destruct W as [p w]; destruct p, w.

Ltac case_ifs :=
  repeat match goal with
         | |- context [if ?c then _ else _] =>
             lazymatch c with
             | context [if _ then _ else _] => fail
             | _ => destruct c; cbn
             end
         end.

Lemma related_withZ W1 W2 :
  eraseZ W1 = eraseZ W2 -> W2 = withZ (rz (this W2)) (cz (this W2)) W1.
Proof.
  destruct_world W1. destruct_world W2. unfold eraseZ, withZ, on_this. cbn.
  intros H. injection H. intros. subst. reflexivity.
Qed.

Lemma ignoresZ_related f W1 W2 :
  ignoresZ f -> eraseZ W1 = eraseZ W2 -> eraseZ (f W1) = eraseZ (f W2).
Proof.
  intros Hf H. rewrite (related_withZ _ _ H), Hf. reflexivity.
Qed.

Lemma related_window W1 W2 : eraseZ W1 = eraseZ W2 -> window W1 = window W2.
Proof. intros H. rewrite (related_withZ _ _ H). reflexivity. Qed.

Lemma onDeviceOrientation_ignoresZ event : ignoresZ (onDeviceOrientation event).
Proof.
  intros a b W. destruct_world W.
  unfold onDeviceOrientation, setRotation, setCalibrationRotation,
    detectOrientationChange, eraseZ, withZ, on_this. cbn.
  case_ifs; reflexivity.
Qed.

Lemma onDeviceOrientation_alpha e1 e2 W :
  beta e1 = beta e2 -> gamma e1 = gamma e2 ->
  eraseZ (onDeviceOrientation e1 W) = eraseZ (onDeviceOrientation e2 W).
Proof.
  intros Hb Hg. destruct_world W.
  unfold onDeviceOrientation, setRotation, setCalibrationRotation,
    detectOrientationChange, eraseZ, on_this. rewrite Hb, Hg. cbn.
  case_ifs; reflexivity.
Qed.

Lemma timeout_ignoresZ h : ignoresZ (timeout h).
Proof.
  intros a b W. destruct_world W. unfold timeout, eraseZ, withZ, on_this. cbn.
  case_ifs; reflexivity.
Qed.

Lemma disable_ignoresZ : ignoresZ disable.
Proof. intros a b W. destruct_world W. reflexivity. Qed.

Lemma enable_ignoresZ : ignoresZ enable.
Proof. intros a b W. destruct_world W. reflexivity. Qed.

Lemma on_window_ignoresZ g : ignoresZ (on_window g).
Proof. intros a b W. destruct_world W. reflexivity. Qed.

Lemma invert_ignoresZ u v : ignoresZ (on_this (invert u v)).
Proof. intros a b W. destruct_world W. reflexivity. Qed.

Lemma scalar_ignoresZ u v : ignoresZ (on_this (scalar u v)).
Proof. intros a b W. destruct_world W. reflexivity. Qed.

Lemma limit_ignoresZ u v : ignoresZ (on_this (limit u v)).
Proof. intros a b W. destruct_world W. reflexivity. Qed.

Lemma onAnimationFrame_withZ a b W :
  onAnimationFrame (withZ a b W)
  = (withZ a b (fst (onAnimationFrame W)), snd (onAnimationFrame W)).
Proof.
  rewrite !onAnimationFrame_unfold. cbv zeta.
  destruct_world W. unfold withZ, on_this, calibrate.
  cbn -[clamp JS.sub JS.mul JS.gt JS.abs].
  destruct (JS.gt _ _ || JS.gt _ _); reflexivity.
Qed.

Lemma onAnimationFrame_related W1 W2 :
  eraseZ W1 = eraseZ W2 ->
  eraseZ (fst (onAnimationFrame W1)) = eraseZ (fst (onAnimationFrame W2))
  /\ snd (onAnimationFrame W1) = snd (onAnimationFrame W2).
Proof.
  intros H. rewrite (related_withZ _ _ H), onAnimationFrame_withZ.
  split; reflexivity.
Qed.

Lemma frameLoop_related callbacks : forall V1 V2 out,
  eraseZ V1 = eraseZ V2 ->
  eraseZ (fst (frameLoop (V1, out) callbacks))
  = eraseZ (fst (frameLoop (V2, out) callbacks))
  /\ snd (frameLoop (V1, out) callbacks) = snd (frameLoop (V2, out) callbacks).
Proof.
  induction callbacks as [|c callbacks IH]; intros V1 V2 out HV.
  - cbn. auto.
  - unfold frameLoop. cbn [foldl].
    destruct (onAnimationFrame_related V1 V2 HV) as [Hw Hc].
    destruct (onAnimationFrame V1) as [V1' c1], (onAnimationFrame V2) as [V2' c2].
    cbn [fst snd] in Hw, Hc. subst c2.
    apply (IH V1' V2' (out ++ c1) Hw).
Qed.

Lemma deviceOrientation_related e1 e2 W1 W2 :
  beta e1 = beta e2 -> gamma e1 = gamma e2 ->
  eraseZ W1 = eraseZ W2 ->
  eraseZ (deviceOrientation e1 W1) = eraseZ (deviceOrientation e2 W2).
Proof.
  intros Hb Hg HW. unfold deviceOrientation.
  rewrite (related_window _ _ HW).
  induction (handlers (window W2)) as [|n IH]; [exact HW|].
  rewrite !Nat.iter_succ.
  rewrite (onDeviceOrientation_alpha e1 e2 _ Hb Hg).
  apply ignoresZ_related; [apply onDeviceOrientation_ignoresZ | exact IH].
Qed.

Lemma step_related i1 i2 W1 W2 :
  eraseAlpha i1 = eraseAlpha i2 ->
  eraseZ W1 = eraseZ W2 ->
  eraseZ (fst (step i1 W1)) = eraseZ (fst (step i2 W2))
  /\ snd (step i1 W1) = snd (step i2 W2).
Proof.
  intros Hi HW.
  destruct i1, i2; try discriminate Hi; cbn in Hi; cbn [step fst snd].
  - injection Hi as Hb Hg. split; [|reflexivity].
    apply deviceOrientation_related; assumption.
  - unfold animationFrame. rewrite (related_window _ _ HW).
    apply frameLoop_related.
    apply ignoresZ_related; [apply on_window_ignoresZ | exact HW].
  - injection Hi as <-. split; [|reflexivity].
    apply ignoresZ_related; [apply timeout_ignoresZ | exact HW].
  - injection Hi as <- <-. split; [|reflexivity].
    apply ignoresZ_related; [apply on_window_ignoresZ | exact HW].
  - split; [|reflexivity].
    apply ignoresZ_related; [apply enable_ignoresZ | exact HW].
  - split; [|reflexivity].
    apply ignoresZ_related; [apply disable_ignoresZ | exact HW].
  - injection Hi as <- <-. split; [|reflexivity].
    apply ignoresZ_related; [apply invert_ignoresZ | exact HW].
  - injection Hi as <- <-. split; [|reflexivity].
    apply ignoresZ_related; [apply scalar_ignoresZ | exact HW].
  - injection Hi as <- <-. split; [|reflexivity].
    apply ignoresZ_related; [apply limit_ignoresZ | exact HW].
Qed.

(** C10.  Two runs that start from worlds differing in [rz] and [cz]
    at most, on inputs differing in [alpha] at most, issue the same
    positioning commands and end in worlds that again differ in [rz]
    and [cz] at most: in particular with the same offsets [ox] and
    [oy]. *)
Theorem z_components_never_observed inputs1 : forall inputs2 W1 W2,
  map eraseAlpha inputs1 = map eraseAlpha inputs2 ->
  eraseZ W1 = eraseZ W2 ->
  snd (run inputs1 W1) = snd (run inputs2 W2)
  /\ eraseZ (fst (run inputs1 W1)) = eraseZ (fst (run inputs2 W2))
  /\ ox (this (fst (run inputs1 W1))) = ox (this (fst (run inputs2 W2)))
  /\ oy (this (fst (run inputs1 W1))) = oy (this (fst (run inputs2 W2))).
Proof.
  assert (Hmain : forall inputs1 inputs2 W1 W2,
             map eraseAlpha inputs1 = map eraseAlpha inputs2 ->
             eraseZ W1 = eraseZ W2 ->
             snd (run inputs1 W1) = snd (run inputs2 W2)
             /\ eraseZ (fst (run inputs1 W1)) = eraseZ (fst (run inputs2 W2))).
  { clear inputs1.
    induction inputs1 as [|i1 inputs1 IH]; intros [|i2 inputs2] W1 W2 Hi HW;
      try discriminate Hi.
    - cbn. auto.
    - cbn [map] in Hi. injection Hi as Hhd Htl. cbn [run].
      destruct (step_related i1 i2 W1 W2 Hhd HW) as [Hw Hout].
      destruct (step i1 W1) as [V1 out1], (step i2 W2) as [V2 out2].
      cbn [fst snd] in Hw, Hout. subst out2.
      destruct (IH inputs2 V1 V2 Htl Hw) as [Hout' Hw'].
      destruct (run inputs1 V1) as [V1' out1'], (run inputs2 V2) as [V2' out2'].
      cbn [fst snd] in *. subst out2'. auto. }
  intros inputs2 W1 W2 Hi HW.
  destruct (Hmain inputs1 inputs2 W1 W2 Hi HW) as [Hout Hw].
  repeat split; try assumption.
  - change (ox (this (eraseZ (fst (run inputs1 W1))))
            = ox (this (fst (run inputs2 W2)))).
    rewrite Hw. reflexivity.
  - change (oy (this (eraseZ (fst (run inputs1 W1))))
            = oy (this (fst (run inputs2 W2)))).
    rewrite Hw. reflexivity.
Qed.

(** * Further properties *)

(** ** Captures *)

Lemma onDeviceOrientation_rotation event W :
  rotation (onDeviceOrientation event W) = sample event.
Proof. reflexivity. Qed.

Lemma onDeviceOrientation_captures event W :
  calibrationFlag (this (detectOrientationChange W)) = true ->
  bias (onDeviceOrientation event W) = sample event.
Proof.
  intros Hf. rewrite onDeviceOrientation_bias.
  apply setCalibrationRotation_set, Hf.
Qed.

Lemma onDeviceOrientation_settles event W :
  settled (onDeviceOrientation event W).
Proof.
  split; [apply onDeviceOrientation_flag|].
  rewrite onDeviceOrientation_window. apply onDeviceOrientation_portrait.
Qed.

Lemma iter_settled event n : forall V,
  settled V ->
  bias (Nat.iter n (onDeviceOrientation event) V) = bias V
  /\ window (Nat.iter n (onDeviceOrientation event) V) = window V.
Proof.
  induction n as [|n IH]; intros V HV; [split; reflexivity|].
  rewrite Nat.iter_succ_r.
  destruct (IH (onDeviceOrientation event V) (onDeviceOrientation_settles event V))
    as [Hb Hw].
  rewrite Hb, Hw, onDeviceOrientation_window.
  destruct HV as [Hf Hp]. split; [|reflexivity].
  apply onDeviceOrientation_settled; assumption.
Qed.

Lemma deviceOrientation_window event W :
  window (deviceOrientation event W) = window W.
Proof.
  unfold deviceOrientation. generalize (handlers (window W)) as n.
  induction n as [|n IH]; [reflexivity|].
  rewrite Nat.iter_succ, onDeviceOrientation_window. exact IH.
Qed.

Lemma deviceOrientation_handled event W :
  handlers (window W) <> 0%nat ->
  rotation (deviceOrientation event W) = sample event
  /\ settled (deviceOrientation event W).
Proof.
  intros Hh. unfold deviceOrientation.
  destruct (handlers (window W)) as [|n]; [contradiction|].
  rewrite Nat.iter_succ. split.
  - apply onDeviceOrientation_rotation.
  - apply onDeviceOrientation_settles.
Qed.

Lemma deviceOrientation_captures event W :
  handlers (window W) <> 0%nat ->
  calibrationFlag (this (detectOrientationChange W)) = true ->
  bias (deviceOrientation event W) = sample event.
Proof.
  intros Hh Hf. unfold deviceOrientation.
  destruct (handlers (window W)) as [|n]; [contradiction|].
  rewrite Nat.iter_succ_r.
  destruct (iter_settled event n (onDeviceOrientation event W)
              (onDeviceOrientation_settles event W)) as [-> _].
  apply onDeviceOrientation_captures, Hf.
Qed.

Lemma deviceOrientation_settled event W :
  settled W -> bias (deviceOrientation event W) = bias W.
Proof.
  intros HW. unfold deviceOrientation.
  apply (iter_settled event (handlers (window W)) W HW).
Qed.

Lemma detectOrientationChange_flag W :
  calibrationFlag (this (detectOrientationChange W))
  = calibrationFlag (this W)
    || negb (Bool.eqb (portrait (this W))
                      (innerHeight (window W) >? innerWidth (window W))%Z).
Proof.
  unfold detectOrientationChange.
  destruct (negb _); cbn; [apply eq_sym, orb_true_r | apply eq_sym, orb_false_r].
Qed.

(** X4.  An orientation event that finds the calibration flag set, or
    the stored mode different from the viewport's, is captured: however
    many handlers are bound, the bias and the rotation are the sample
    of that very event afterwards and the instance is settled; an event
    that finds the instance settled only replaces the rotation. *)
Theorem capture_on_flag_or_mode_change event W :
  handlers (window W) <> 0%nat ->
  (calibrationFlag (this W) = true
   \/ portrait (this W) <> (innerHeight (window W) >? innerWidth (window W))%Z ->
   bias (deviceOrientation event W) = sample event)
  /\ (settled W -> bias (deviceOrientation event W) = bias W)
  /\ rotation (deviceOrientation event W) = sample event
  /\ settled (deviceOrientation event W).
Proof.
  intros Hh. destruct (deviceOrientation_handled event W Hh) as [Hr Hs].
  repeat split; try assumption; try apply Hs.
  - intros Hcause. apply deviceOrientation_captures; [exact Hh|].
    rewrite detectOrientationChange_flag.
    destruct Hcause as [-> | Hp]; [reflexivity|].
    destruct (portrait (this W)), (innerHeight (window W) >? innerWidth (window W))%Z;
      cbn; try apply orb_true_r; exfalso; apply Hp; reflexivity.
  - apply deviceOrientation_settled.
Qed.

Lemma angle_finite v : angle v = true -> isFinite (JS.or v (Num 0)) = true.
Proof.
  destruct v as [| |b|[|q]|s]; try discriminate; intros _; try reflexivity.
  unfold JS.or. cbn. destruct (Qeq_bool q 0); reflexivity.
Qed.



(** ** Angles *)

Lemma onDeviceOrientation_finite event W :
  deviceInput (DeviceOrientation event) ->
  finiteAngles W -> finiteAngles (onDeviceOrientation event W).
Proof.
  intros (Hb & Hg & Ha) (H1 & H2 & H3 & H4 & H5 & H6).
  apply angle_finite in Hb, Hg, Ha.
  unfold onDeviceOrientation, setRotation, setCalibrationRotation.
  destruct (calibrationFlag (this (detectOrientationChange W))); cbn;
    unfold finiteAngles; cbn; repeat split; try assumption;
    unfold detectOrientationChange; destruct (negb _); assumption.
Qed.

Lemma animationFrame_rotation W :
  rotation (fst (animationFrame W)) = rotation W.
Proof.
  pose proof (frameLoop_counts (frames (window W))
                (on_window (set_frames []) W) []) as (_ & _ & H).
  change (rotation (fst (animationFrame W)))
    with (rx (frameStable (this (fst (animationFrame W)))),
          ry (frameStable (this (fst (animationFrame W)))),
          rz (frameStable (this (fst (animationFrame W))))).
  unfold animationFrame. rewrite H. reflexivity.
Qed.

Lemma step_rotation W i :
  (forall e, i <> DeviceOrientation e) -> rotation (fst (step i W)) = rotation W.
Proof.
  intros Hi. destruct i; cbn [step fst];
    [ exfalso; eapply Hi; reflexivity
    | apply animationFrame_rotation
    | unfold timeout; destruct (existsb _ _); reflexivity
    | reflexivity .. ].
Qed.

Lemma finiteAngles_pose W V :
  rotation V = rotation W -> bias V = bias W -> finiteAngles W -> finiteAngles V.
Proof.
  unfold rotation, bias, finiteAngles. intros Hr Hb.
  pose proof (f_equal (fun t => fst (fst t)) Hr) as Hrx.
  pose proof (f_equal (fun t => snd (fst t)) Hr) as Hry.
  pose proof (f_equal snd Hr) as Hrz.
  pose proof (f_equal (fun t => fst (fst t)) Hb) as Hcx.
  pose proof (f_equal (fun t => snd (fst t)) Hb) as Hcy.
  pose proof (f_equal snd Hb) as Hcz.
  cbn [fst snd] in *. rewrite Hrx, Hry, Hrz, Hcx, Hcy, Hcz. auto.
Qed.

Lemma step_finite i W :
  deviceInput i -> finiteAngles W -> finiteAngles (fst (step i W)).
Proof.
  intros Hi HW.
  destruct i as [event| | | | | | | |];
    try (apply (finiteAngles_pose W);
         [apply step_rotation; discriminate | apply step_bias; discriminate | exact HW]).
  cbn [step fst]. unfold deviceOrientation.
  induction (handlers (window W)) as [|n IH]; [exact HW|].
  rewrite Nat.iter_succ. apply onDeviceOrientation_finite; assumption.
Qed.

(** X6.  As long as the orientation events carry angles that are
    numbers or missing, the rotation and the bias of the instance are
    numbers and never [NaN], from the construction on and whatever else
    happens to the instance. *)
Theorem angles_stay_finite options attribute layers0 w inputs :
  Forall deviceInput inputs ->
  finiteAngles (fst (run inputs (Plugin_new options attribute layers0 w))).
Proof.
  assert (Hstart : finiteAngles (Plugin_new options attribute layers0 w)).
  { unfold finiteAngles. cbn. repeat split. }
  revert Hstart. generalize (Plugin_new options attribute layers0 w) as W.
  induction inputs as [|i inputs IH]; intros W HW Hin; [exact HW|].
  apply Forall_cons_1 in Hin as [Hi Hin].
  cbn [run]. pose proof (step_finite i W Hi HW) as HV.
  destruct (step i W) as [V out]. cbn [fst] in HV.
  specialize (IH V HV Hin). destruct (run inputs V) as [V' out']. exact IH.
Qed.

(** ** The calibration timer *)

Lemma calibrate_oneTimer delay W :
  oneTimer W ->
  timers (window (calibrate delay W)) = [(nextHandle (window W), delay)]
  /\ calibrationTimer (this (calibrate delay W)) = Some (nextHandle (window W)).
Proof.
  intros [Hnone | (h & d & Hone & Hh)]; unfold calibrate.
  - destruct (calibrationTimer (this W)); cbn; rewrite Hnone; split; reflexivity.
  - rewrite Hh. cbn. rewrite Hone. cbn.
    rewrite decide_False by (intros Hne; apply Hne; reflexivity).
    split; reflexivity.
Qed.

Lemma calibrate_keeps_oneTimer delay W : oneTimer W -> oneTimer (calibrate delay W).
Proof.
  intros HW. destruct (calibrate_oneTimer delay W HW) as [Ht Hc].
  right. eauto.
Qed.

(** What a frame callback does to the timers is what its [calibrate]
    does, if it calls it. *)
Lemma onAnimationFrame_timers W :
  let p := this W in
  let dx := JS.sub (ToNumber (rx p)) (ToNumber (cx p)) in
  let dy := JS.sub (ToNumber (ry p)) (ToNumber (cy p)) in
  let W1 :=
    if JS.gt (JS.abs dx) (ToNumber (calibrationThreshold p))
       || JS.gt (JS.abs dy) (ToNumber (calibrationThreshold p))
    then calibrate (Num 0) W else W in
  timers (window (fst (onAnimationFrame W))) = timers (window W1)
  /\ calibrationTimer (this (fst (onAnimationFrame W))) = calibrationTimer (this W1)
  /\ handlers (window (fst (onAnimationFrame W))) = handlers (window W).
Proof.
  cbv zeta. rewrite onAnimationFrame_unfold. cbv zeta.
  destruct (JS.gt _ _ || JS.gt _ _); repeat split.
  unfold calibrate. destruct (calibrationTimer (this W)); reflexivity.
Qed.

Lemma onAnimationFrame_oneTimer W :
  oneTimer W -> oneTimer (fst (onAnimationFrame W)).
Proof.
  intros HW. destruct (onAnimationFrame_timers W) as (Ht & Hc & _).
  cbv zeta in Ht, Hc. unfold oneTimer. rewrite Ht, Hc.
  destruct (JS.gt _ _ || JS.gt _ _); [|exact HW].
  apply calibrate_keeps_oneTimer, HW.
Qed.

Lemma frameLoop_oneTimer callbacks : forall V out,
  oneTimer V -> oneTimer (fst (frameLoop (V, out) callbacks)).
Proof.
  induction callbacks as [|c callbacks IH]; intros V out HV; [exact HV|].
  unfold frameLoop. cbn [foldl].
  pose proof (onAnimationFrame_oneTimer V HV) as HV'.
  destruct (onAnimationFrame V) as [V' commands]. apply IH, HV'.
Qed.

Lemma timeout_oneTimer h W : oneTimer W -> oneTimer (timeout h W).
Proof.
  intros HW. unfold timeout. destruct (existsb _ _); [|exact HW].
  destruct HW as [Hnone | (h' & d & Hone & Hh)].
  - left. cbn. rewrite Hnone. reflexivity.
  - cbn. unfold oneTimer. cbn. rewrite Hone. cbn.
    destruct (decide (h' ≠ h)); [right; eauto | left; reflexivity].
Qed.

Lemma deviceOrientation_this_timer event W :
  calibrationTimer (this (deviceOrientation event W)) = calibrationTimer (this W).
Proof.
  unfold deviceOrientation. induction (handlers (window W)) as [|n IH]; [reflexivity|].
  rewrite Nat.iter_succ. rewrite <- IH.
  generalize (Nat.iter n (onDeviceOrientation event) W) as V. intros V.
  unfold onDeviceOrientation, setRotation, setCalibrationRotation,
    detectOrientationChange.
  repeat match goal with |- context [if ?c then _ else _] => destruct c end;
    reflexivity.
Qed.

Lemma step_oneTimer i W : oneTimer W -> oneTimer (fst (step i W)).
Proof.
  intros HW. destruct i; cbn [step fst]; try exact HW.
  - unfold oneTimer.
    rewrite deviceOrientation_window, deviceOrientation_this_timer. exact HW.
  - apply frameLoop_oneTimer. exact HW.
  - apply timeout_oneTimer, HW.
  - unfold disable. destruct (raf (this W)); exact HW.
Qed.

(** X1.  [calibrate] clears the timer it armed before it arms the next:
    on an instance constructed in a window without timers, one
    calibration timer is pending at most at any point of any run, and
    it is the timer [calibrationTimer] names; right after the
    construction it is the timer of the configured delay. *)
Theorem one_calibration_timer options attribute layers0 w inputs :
  timers w = [] ->
  let W0 := Plugin_new options attribute layers0 w in
  let W := fst (run inputs W0) in
  timers (window W0) = [(S (nextHandle w), calibrationDelay (this W0))]
  /\ (length (timers (window W)) <= 1)%nat
  /\ (forall t, In t (timers (window W)) -> calibrationTimer (this W) = Some (fst t)).
Proof.
  intros Hw. destruct w as [wi hi hn fr tm nh]. cbn in Hw. subst tm.
  intros W0 W.
  assert (Hstart : timers (window W0) = [(S nh, calibrationDelay (this W0))]
                   /\ calibrationTimer (this W0) = Some (S nh)).
  { split; reflexivity. }
  split; [apply Hstart|].
  assert (Hone : oneTimer W).
  { unfold W. assert (H0 : oneTimer W0) by (right; destruct Hstart; eauto).
    clear Hstart. revert H0. generalize W0 as V. clear W W0.
    induction inputs as [|i inputs IH]; intros V HV; [exact HV|].
    cbn [run]. pose proof (step_oneTimer i V HV) as HV'.
    destruct (step i V) as [V' out]. cbn [fst] in HV'.
    specialize (IH V' HV'). destruct (run inputs V') as [V'' out']. exact IH. }
  destruct Hone as [Hnone | (h & d & Hone & Hh)].
  - rewrite Hnone. split; [cbn; lia | intros t []].
  - rewrite Hone. split; [cbn; lia|].
    intros t [<- | []]. exact Hh.
Qed.

(** ** The threshold *)







(** ** Stopping *)

Lemma onAnimationFrame_oneLoop W :
  frames (window W) = [] -> oneLoop (fst (onAnimationFrame W)).
Proof.
  intros Hf. rewrite onAnimationFrame_unfold. cbv zeta.
  destruct_world W. cbn in Hf. subst. unfold calibrate, oneLoop.
  destruct (JS.gt _ _ || JS.gt _ _); [destruct calibrationTimer0|]; cbn;
    eexists; split; reflexivity.
Qed.

Lemma deviceOrientation_raf event W :
  raf (this (deviceOrientation event W)) = raf (this W).
Proof.
  unfold deviceOrientation. induction (handlers (window W)) as [|n IH]; [reflexivity|].
  rewrite Nat.iter_succ. rewrite <- IH.
  generalize (Nat.iter n (onDeviceOrientation event) W) as V. intros V.
  unfold onDeviceOrientation, setRotation, setCalibrationRotation,
    detectOrientationChange.
  repeat match goal with |- context [if ?c then _ else _] => destruct c end;
    reflexivity.
Qed.

Lemma step_oneLoop i W :
  noEnableDisable i -> oneLoop W -> oneLoop (fst (step i W)).
Proof.
  intros Hi HW. destruct i; cbn [step fst]; try exact HW; try destruct Hi.
  - unfold oneLoop. rewrite deviceOrientation_window, deviceOrientation_raf. exact HW.
  - destruct HW as (h & Hf & _). unfold animationFrame. rewrite Hf.
    unfold frameLoop. cbn [foldl].
    pose proof (onAnimationFrame_oneLoop (on_window (set_frames []) W) eq_refl) as H.
    destruct (onAnimationFrame (on_window (set_frames []) W)) as [V commands].
    exact H.
  - unfold timeout. destruct (existsb _ _); exact HW.
Qed.

Lemma stopped_deviceOrientation event W :
  stopped W -> deviceOrientation event W = W.
Proof. intros [Hh _]. unfold deviceOrientation. rewrite Hh. reflexivity. Qed.

Lemma stopped_animationFrame W :
  stopped W -> animationFrame W = (W, []).
Proof.
  intros [_ Hf]. unfold animationFrame. rewrite Hf. cbn.
  destruct W as [p w]; destruct w. cbn in Hf. subst. reflexivity.
Qed.

Lemma disable_oneLoop W : oneLoop W -> stopped (disable W).
Proof.
  destruct_world W. intros (h & Hf & Hr). cbn in Hf, Hr. subst.
  unfold disable, stopped. cbn.
  rewrite decide_False by (intros Hne; apply Hne; reflexivity).
  split; reflexivity.
Qed.

Lemma enable_stopped W :
  stopped W -> handlers (window (enable W)) = 1%nat /\ oneLoop (enable W).
Proof.
  destruct_world W. intros [Hh Hf]. cbn in Hh, Hf. subst.
  split; [reflexivity|]. eexists. split; reflexivity.
Qed.

(** X7.  On an instance that was enabled by its constructor only, in a
    window without frame requests, one frame request is pending at any
    point of a run, the one [raf] names; [disable()] then leaves no
    handler and no request: orientation events and frames change
    nothing and position no layer until [enable()] binds one handler
    and requests one frame again. *)
Theorem disable_stops options attribute layers0 w inputs :
  frames w = [] ->
  Forall noEnableDisable inputs ->
  let W := fst (run inputs (Plugin_new options attribute layers0 w)) in
  let V := disable W in
  oneLoop W
  /\ stopped V
  /\ this V = this W
  /\ (forall event, deviceOrientation event V = V)
  /\ animationFrame V = (V, [])
  /\ handlers (window (enable V)) = 1%nat
  /\ oneLoop (enable V).
Proof.
  intros Hw Hin. destruct w as [wi hi hn fr tm nh]. cbn in Hw. subst fr.
  intros W V.
  assert (HW : oneLoop W).
  { unfold W.
    assert (H0 : oneLoop (Plugin_new options attribute layers0
                            (Build_Window wi hi hn [] tm nh))).
    { exists nh. split; reflexivity. }
    revert H0 Hin.
    generalize (Plugin_new options attribute layers0 (Build_Window wi hi hn [] tm nh))
      as U. clear W V.
    induction inputs as [|i inputs IH]; intros U HU Hin; [exact HU|].
    apply Forall_cons_1 in Hin as [Hi Hin].
    cbn [run]. pose proof (step_oneLoop i U Hi HU) as HU'.
    destruct (step i U) as [U' out]. cbn [fst] in HU'.
    specialize (IH U' HU' Hin). destruct (run inputs U') as [U'' out']. exact IH. }
  assert (HV : stopped V) by apply disable_oneLoop, HW.
  split; [exact HW|]. split; [exact HV|]. split; [reflexivity|].
  split; [intros event; apply stopped_deviceOrientation, HV|].
  split; [apply stopped_animationFrame, HV|].
  apply enable_stopped, HV.
Qed.

Lemma enable_window W :
  frames (window (enable W)) = frames (window W) ++ [nextHandle (window W)]
  /\ nextHandle (window (enable W)) = S (nextHandle (window W))
  /\ layers (this (enable W)) = layers (this W)
  /\ raf (this (enable W)) = Some (nextHandle (window W)).
Proof. repeat split. Qed.

Lemma iter_enable k : forall W,
  frames (window (Nat.iter k enable W))
  = frames (window W) ++ seq (nextHandle (window W)) k
  /\ nextHandle (window (Nat.iter k enable W)) = (nextHandle (window W) + k)%nat
  /\ layers (this (Nat.iter k enable W)) = layers (this W).
Proof.
  induction k as [|k IH]; intros W.
  - cbn. rewrite app_nil_r, Nat.add_0_r. repeat split.
  - rewrite Nat.iter_succ. destruct (IH W) as (Hf & Hn & Hl).
    destruct (enable_window (Nat.iter k enable W)) as (Hf' & Hn' & Hl' & _).
    rewrite Hf', Hn', Hl', Hf, Hn, Hl, seq_S, app_assoc.
    repeat split. lia.
Qed.

Lemma disable_window W :
  handlers (window (disable W)) = 0%nat
  /\ layers (this (disable W)) = layers (this W)
  /\ frames (window (disable W))
     = match raf (this W) with
       | Some h => filter (fun f => f ≠ h) (frames (window W))
       | None => frames (window W)
       end.
Proof. unfold disable. destruct (raf (this W)); repeat split. Qed.

Lemma filter_seq_below (n k m : nat) :
  (n + k <= m)%nat -> filter (fun f => f ≠ m) (seq n k) = seq n k.
Proof.
  revert n. induction k as [|k IH]; intros n Hle; [reflexivity|].
  cbn [seq]. rewrite filter_cons_True by lia. rewrite IH by lia. reflexivity.
Qed.

(** X8.  [disable()] cancels the newest frame request only: after
    [k + 1] calls of [enable()] on a stopped instance it unbinds every
    handler and leaves [k] requests pending, so that every frame still
    positions every layer [k] times. *)
Theorem disable_leaves_older_loops W (k : nat) :
  frames (window W) = [] ->
  let V := disable (Nat.iter (S k) enable W) in
  handlers (window V) = 0%nat
  /\ frames (window V) = seq (nextHandle (window W)) k
  /\ length (snd (animationFrame V)) = (k * length (layers (this W)))%nat.
Proof.
  intros Hf V.
  assert (HV : handlers (window V) = 0%nat
               /\ frames (window V) = seq (nextHandle (window W)) k
               /\ layers (this V) = layers (this W)).
  { unfold V. rewrite Nat.iter_succ. destruct (iter_enable k W) as (Hfk & Hnk & Hlk).
    destruct (enable_window (Nat.iter k enable W)) as (Hf' & _ & Hl' & Hr').
    destruct (disable_window (enable (Nat.iter k enable W))) as (Hh & Hl & Hfr).
    rewrite Hh, Hl, Hfr, Hr', Hf', Hl', Hfk, Hnk, Hlk, Hf. cbn [app].
    rewrite filter_app, filter_seq_below by lia.
    rewrite filter_cons_False by (intros Hne; apply Hne; reflexivity).
    rewrite filter_nil, app_nil_r. repeat split. }
  destruct HV as (Hh & Hfr & Hl). split; [exact Hh|]. split; [exact Hfr|].
  pose proof (frameLoop_counts (frames (window V))
                (on_window (set_frames []) V) []) as (Hc & _ & _).
  change (layers (this (on_window (set_frames []) V))) with (layers (this V)) in Hc.
  unfold animationFrame. rewrite Hc, Hfr, length_seq, Hl. reflexivity.
Qed.

(** ** The setters *)

(** X9.  Each of [invert], [scalar] and [limit] is a partial update of
    its own two settings: with both arguments omitted it changes
    nothing, an argument that is given is stored as it is, calling it
    twice with the same arguments is calling it once, it touches no
    other field, and setters of different settings commute. *)
Theorem setters_update_their_axes (p : Plugin) (x y u v : value) :
  (invert VUndefined VUndefined p = p
   /\ scalar VUndefined VUndefined p = p
   /\ limit VUndefined VUndefined p = p)
  /\ (invertX (invert x y p) = (if JS.is_undefined x then invertX p else x)
      /\ invertY (invert x y p) = (if JS.is_undefined y then invertY p else y)
      /\ scalarX (scalar x y p) = (if JS.is_undefined x then scalarX p else x)
      /\ scalarY (scalar x y p) = (if JS.is_undefined y then scalarY p else y)
      /\ limitX (limit x y p) = (if JS.is_undefined x then limitX p else x)
      /\ limitY (limit x y p) = (if JS.is_undefined y then limitY p else y))
  /\ (invert x y (invert x y p) = invert x y p
      /\ scalar x y (scalar x y p) = scalar x y p
      /\ limit x y (limit x y p) = limit x y p)
  /\ (set_invertX (invertX p) (set_invertY (invertY p) (invert x y p)) = p
      /\ set_scalarX (scalarX p) (set_scalarY (scalarY p) (scalar x y p)) = p
      /\ set_limitX (limitX p) (set_limitY (limitY p) (limit x y p)) = p)
  /\ (invert x y (scalar u v p) = scalar u v (invert x y p)
      /\ invert x y (limit u v p) = limit u v (invert x y p)
      /\ scalar x y (limit u v p) = limit u v (scalar x y p)).
Proof.
  unfold invert, scalar, limit.
  destruct (JS.is_undefined x), (JS.is_undefined y); repeat split.
Qed.

(** X10.  A limit is removed by passing [limit] a value that is not
    [undefined] and does not parse as a number ([null], [false]): the
    next frame stores the raw offset of the axis; omitting the argument
    removes nothing: the next frame stores what it would have stored
    without the call. *)
Theorem limit_removed_by_null_only W (v y : value) :
  JS.is_undefined v = false ->
  JS.isNaN (parseFloat v) = true ->
  ox (this (fst (onAnimationFrame (on_this (limit v VUndefined) W))))
  = fst (rawOffsets W)
  /\ oy (this (fst (onAnimationFrame (on_this (limit VUndefined v) W))))
     = snd (rawOffsets W)
  /\ ox (this (fst (onAnimationFrame (on_this (limit VUndefined y) W))))
     = ox (this (fst (onAnimationFrame W)))
  /\ oy (this (fst (onAnimationFrame (on_this (limit y VUndefined) W))))
     = oy (this (fst (onAnimationFrame W))).
Proof.
  intros Hdef Hnan.
  destruct (onAnimationFrame_offsets (on_this (limit v VUndefined) W)) as [-> _].
  destruct (onAnimationFrame_offsets (on_this (limit VUndefined v) W)) as [_ ->].
  destruct (onAnimationFrame_offsets (on_this (limit VUndefined y) W)) as [-> _].
  destruct (onAnimationFrame_offsets (on_this (limit y VUndefined) W)) as [_ ->].
  destruct (onAnimationFrame_offsets W) as [-> ->].
  unfold limit, rawOffsets. rewrite Hdef. cbn. rewrite Hnan. repeat split.
Qed.

(** ** The commands *)

Lemma Forall2_imap_same {A B C} (R : B -> C -> Prop) (l : list A) :
  forall (f : nat -> A -> B) (g : nat -> A -> C),
    (forall i a, l !! i = Some a -> R (f i a) (g i a)) ->
    Forall2 R (imap f l) (imap g l).
Proof.
  induction l as [|a l IH]; intros f g H; [constructor|].
  cbn [imap]. constructor.
  - apply (H 0%nat a). reflexivity.
  - apply IH. intros i b Hi. apply (H (S i) b). exact Hi.
Qed.

Lemma neg_sign (o : number) (v v' : value) :
  JS.ToBoolean v' = negb (JS.ToBoolean v) ->
  numEquiv (JS.mul o (sign v')) (JS.neg (JS.mul o (sign v))).
Proof.
  unfold sign. intros ->.
  destruct o as [|q]; destruct (JS.ToBoolean v); cbn; try exact I; ring.
Qed.

(** X11.  Replacing [invertX] by a value of the opposite truth value
    negates the [x] of every positioning command of a frame and leaves
    its [y], the layer it is for and the stored offsets as they are. *)
Theorem invert_toggle_negates_x W (v : value) :
  JS.is_undefined v = false ->
  JS.ToBoolean v = negb (JS.ToBoolean (invertX (this W))) ->
  let W' := on_this (invert v VUndefined) W in
  Forall2 xNegated (snd (onAnimationFrame W)) (snd (onAnimationFrame W'))
  /\ ox (this (fst (onAnimationFrame W'))) = ox (this (fst (onAnimationFrame W)))
  /\ oy (this (fst (onAnimationFrame W'))) = oy (this (fst (onAnimationFrame W))).
Proof.
  intros Hdef Hneg. cbv zeta.
  rewrite !onAnimationFrame_unfold. cbv zeta. cbn [snd fst].
  unfold invert. rewrite Hdef.
  split; [|split; destruct (JS.gt _ _ || JS.gt _ _); reflexivity].
  apply Forall2_imap_same. intros i a _. unfold xNegated, setPosition.
  cbn. split; [reflexivity|]. split; [|reflexivity].
  apply neg_sign, Hneg.
Qed.

(** X12.  In every world a run reaches from the construction, a depth
    is cached for every layer and is the layer's own; a frame then
    issues one command per layer, in the order of the layers, each for
    the layer of its index and computed from that layer's depth
    attribute, or from 0 where the attribute is falsy. *)
Theorem commands_follow_layers options attribute layers0 w inputs :
  let W := fst (run inputs (Plugin_new options attribute layers0 w)) in
  let p' := this (fst (onAnimationFrame W)) in
  layers (this W) = layers0
  /\ depths (this W) = map (fun d => JS.or d (Num 0)) layers0
  /\ length (snd (onAnimationFrame W)) = length layers0
  /\ (forall i d, layers0 !! i = Some d ->
      snd (onAnimationFrame W) !! i
      = Some (setPosition i
                (JS.mul (JS.mul (ox p') (ToNumber (JS.or d (Num 0))))
                        (sign (invertX (this W))))
                (JS.mul (JS.mul (oy p') (ToNumber (JS.or d (Num 0))))
                        (sign (invertY (this W)))))).
Proof.
  intros W p'.
  pose proof (run_setup inputs (Plugin_new options attribute layers0 w)) as Hsetup.
  fold W in Hsetup. rewrite Plugin_new_setup in Hsetup.
  pose proof (f_equal fst Hsetup) as Hl. pose proof (f_equal snd Hsetup) as Hd.
  cbn [setup fst snd] in Hl, Hd.
  split; [exact Hl|]. split; [exact Hd|].
  split; [rewrite onAnimationFrame_commands, Hl; reflexivity|].
  intros i d Hi. unfold p'.
  destruct (onAnimationFrame_offsets W) as [Hox Hoy]. cbv zeta in Hox, Hoy.
  rewrite Hox, Hoy. rewrite onAnimationFrame_unfold. cbv zeta. cbn [snd].
  rewrite list_lookup_imap, Hl, Hi, Hd. change (map ?f ?l) with (f <$> l).
  rewrite list_lookup_fmap, Hi. reflexivity.
Qed.

(** ** Styles *)

Lemma transform_vendorProperties :
  map (fun vendorPrefix => vendorProperty vendorPrefix "transform") vendors
  = transformNames.
Proof. reflexivity. Qed.

Lemma propertySupport_iff (styleDefined : string -> bool) :
  propertySupport styleDefined = true
  <-> exists name, In name transformNames /\ styleDefined name = true.
Proof.
  unfold propertySupport. rewrite existsb_exists, <- transform_vendorProperties.
  split.
  - intros (v & Hv & Hdef). eexists. split; [|exact Hdef].
    apply in_map_iff. eauto.
  - intros (name & Hname & Hdef). apply in_map_iff in Hname as (v & <- & Hv). eauto.
Qed.

(** X14.  [transformSupport] reports 2D support exactly when the style
    of an element has the property [transform] under one of the five
    names (four vendors and none), and 3D support exactly when it has
    and the layout test under the 3D media query succeeds, so that 3D
    support implies 2D support.  The 2D test never throws; the 3D test
    throws exactly when the style has the property and the document
    has no body.  Asked for anything but "2D" or "3D" it reports no
    support. *)
Theorem transform_support (styleDefined : string -> bool)
    (probe3D : option bool) (feature : value) :
  (transformSupport styleDefined probe3D (VString "2D") = Some true
   <-> exists name, In name transformNames /\ styleDefined name = true)
  /\ transformSupport styleDefined probe3D (VString "2D") <> None
  /\ (transformSupport styleDefined probe3D (VString "3D") = Some true
      <-> (exists name, In name transformNames /\ styleDefined name = true)
          /\ probe3D = Some true)
  /\ (transformSupport styleDefined probe3D (VString "3D") = None
      <-> (exists name, In name transformNames /\ styleDefined name = true)
          /\ probe3D = None)
  /\ (transformSupport styleDefined probe3D (VString "3D") = Some true ->
      transformSupport styleDefined probe3D (VString "2D") = Some true)
  /\ (feature <> VString "2D" -> feature <> VString "3D" ->
      transformSupport styleDefined probe3D feature = Some false).
Proof.
  pose proof (propertySupport_iff styleDefined) as Hiff.
  cbn [transformSupport String.eqb Ascii.eqb Bool.eqb].
  rewrite <- Hiff.
  repeat apply conj.
  - intros H; injection H as H; exact H.
  - intros ->; reflexivity.
  - discriminate.
  - destruct (propertySupport styleDefined); [auto | discriminate].
  - intros [Hp ->]. rewrite Hp. reflexivity.
  - destruct (propertySupport styleDefined); [auto | discriminate].
  - intros [Hp ->]. rewrite Hp. reflexivity.
  - destruct (propertySupport styleDefined); [reflexivity | discriminate].
  - intros H2 H3. destruct feature as [| |b0|n|s]; try reflexivity.
    cbn [transformSupport].
    destruct (String.eqb_spec s "2D") as [->|_]; [contradiction|].
    destruct (String.eqb_spec s "3D") as [->|_]; [contradiction|]. reflexivity.
Qed.

(** X15.  With the support the two tests of the prototype report, a
    positioning command is written through [left] and [top], and
    nothing else, exactly when the style has no [transform] property
    under any of the five names; otherwise it is written under those
    five names, the unprefixed one last, as one [translate3d] value
    when the 3D test succeeded and as one [translate] value when it did
    not, and [left] and [top] are not written. *)
Theorem position_strategy (styleDefined : string -> bool)
    (probe3D : option bool) (support3D support2D : bool) (c : Command) :
  transformSupport styleDefined probe3D (VString "3D") = Some support3D ->
  transformSupport styleDefined probe3D (VString "2D") = Some support2D ->
  let writes := setPositionStyle support3D support2D c in
  let px := (NumberToString (x c) ++ "%")%string in
  let py := (NumberToString (y c) ++ "%")%string in
  ((forall name, In name transformNames -> styleDefined name = false) ->
   writes = [("left", px); ("top", py)]%string)
  /\ ((exists name, In name transformNames /\ styleDefined name = true) ->
      probe3D = Some support3D
      /\ map fst writes = transformNames
      /\ Forall (fun write =>
                   snd write
                   = if support3D
                     then ("translate3d(" ++ px ++ "," ++ py ++ ",0)")%string
                     else ("translate(" ++ px ++ "," ++ py ++ ")")%string)
                writes).
Proof.
  pose proof (propertySupport_iff styleDefined) as Hiff.
  cbn [transformSupport String.eqb Ascii.eqb Bool.eqb].
  intros H3 H2. cbv zeta. injection H2 as <-.
  split.
  - intros Hnone.
    assert (propertySupport styleDefined = false) as Hp.
    { destruct (propertySupport styleDefined); [|reflexivity].
      destruct (proj1 Hiff eq_refl) as (name & Hname & Hdef).
      rewrite (Hnone name Hname) in Hdef. discriminate. }
    rewrite Hp in H3 |- *. injection H3 as <-. reflexivity.
  - intros Hsome. rewrite (proj2 Hiff Hsome) in H3 |- *. subst probe3D.
    split; [reflexivity|]. unfold setPositionStyle.
    destruct support3D; (split; [reflexivity | repeat constructor]).
Qed.

(** ** The plugin function *)


(** X17.  Called with the method name "enable" on a container that has
    no instance yet, the plugin function enables twice: the constructor
    does, and the method does again; two handlers are bound and two
    frame requests pending where a call with options, or with none,
    leaves one of each. *)
Theorem parallax_enable_first_enables_twice (args : list value) (c : Container)
    (w : Window) (options : gmap string value) :
  data c = None ->
  let enabled := snd (parallax (AMethod MEnable) args c w) in
  let constructed := snd (parallax (AOptions options) args c w) in
  handlers enabled = S (S (handlers w))
  /\ frames enabled = frames w ++ [nextHandle w; S (S (nextHandle w))]
  /\ handlers constructed = S (handlers w)
  /\ frames constructed = frames w ++ [nextHandle w]
  /\ handlers (snd (parallax ANone args c w)) = S (handlers w)
  /\ frames (snd (parallax ANone args c w)) = frames w ++ [nextHandle w].
Proof.
  intros Hnone. cbv zeta. unfold parallax. rewrite Hnone.
  destruct w as [wi hi hn fr tm nh]. cbn.
  rewrite <- app_assoc. repeat split.
Qed.

End Parallax.

(** * The frame in double precision

    The properties of the offsets and of the positions that depend on
    overflow, proved of the embedding [IEEE]. *)

Section DoublePrecision.

Import IEEE.

Context {builtins64 : IEEE.Builtins}.

Local Open Scope Z_scope.

(** ** Rounding never yields [NaN] *)

Lemma shr_1_nonneg (mrs : shr_record) :
  0 <= shr_m mrs -> 0 <= shr_m (shr_1 mrs).
Proof.
  destruct mrs as [m r s]. cbn [shr_m]. intros Hm.
  destruct m as [|[p|p|]|p]; cbn; lia.
Qed.

Lemma iter_pos_shr_1_nonneg (n : positive) : forall mrs,
  0 <= shr_m mrs -> 0 <= shr_m (SpecFloat.iter_pos shr_1 n mrs).
Proof.
  induction n as [n IH|n IH|]; intros mrs Hm; cbn [SpecFloat.iter_pos].
  - apply IH, IH, shr_1_nonneg, Hm.
  - apply IH, IH, Hm.
  - apply shr_1_nonneg, Hm.
Qed.

Lemma shr_fexp_nonneg (m e : Z) (l : location) :
  0 <= m -> 0 <= shr_m (fst (shr_fexp prec emax m e l)).
Proof.
  intros Hm. unfold shr_fexp, shr.
  assert (H0 : 0 <= shr_m (shr_record_of_loc m l)).
  { destruct l as [|[| |]]; exact Hm. }
  destruct (fexp prec emax (Zdigits2 m + e) - e) as [|p|p]; cbn [fst];
    [exact H0 | apply iter_pos_shr_1_nonneg, H0 | exact H0].
Qed.

Lemma round_nearest_even_nonneg (m : Z) (l : location) :
  0 <= m -> 0 <= round_nearest_even m l.
Proof.
  intros Hm. destruct l as [|[| |]]; cbn; [lia | | lia | lia].
  destruct (Z.even m); lia.
Qed.

Lemma binary_round_aux_number (s : bool) (m e : Z) (l : location) :
  0 <= m -> JS.isNaN (binary_round_aux prec emax s m e l) = false.
Proof.
  intros Hm. unfold binary_round_aux.
  pose proof (shr_fexp_nonneg m e l Hm) as H1.
  destruct (shr_fexp prec emax m e l) as [mrs' e']. cbn [fst] in H1.
  pose proof (shr_fexp_nonneg _ e' loc_Exact
                (round_nearest_even_nonneg _ (loc_of_shr_record mrs') H1)) as H2.
  destruct (shr_fexp prec emax _ e' loc_Exact) as [mrs'' e'']. cbn [fst] in H2.
  destruct (shr_m mrs'') as [|p|p]; [reflexivity | | lia].
  destruct (e'' <=? emax - prec); reflexivity.
Qed.

Lemma binary_normalize_number (m e : Z) (szero : bool) :
  JS.isNaN (binary_normalize prec emax m e szero) = false.
Proof.
  destruct m as [|p|p]; cbn [binary_normalize]; [reflexivity | |];
    unfold binary_round;
    destruct (shl_align _ _ _) as [mz ez]; apply binary_round_aux_number; lia.
Qed.

(** The difference of two finite numbers is a number: it is finite, or
    an infinity when it overflows. *)
Lemma sub_finite_number (a b : number) :
  JS.isFinite a = true -> JS.isFinite b = true -> JS.isNaN (JS.sub a b) = false.
Proof.
  destruct a as [sa|sa| |sa ma ea], b as [sb|sb| |sb mb eb]; try discriminate;
    intros _ _; cbn [JS.sub SFsub].
  all: try (destruct sa, sb; reflexivity).
  all: try reflexivity.
  apply binary_normalize_number.
Qed.

(** A product is [NaN] when a factor is, and when an infinity meets a
    zero; it is no other time. *)
Lemma mul_NaN_iff (a b : number) :
  JS.isNaN (JS.mul a b) = true
  <-> JS.isNaN a = true \/ JS.isNaN b = true
      \/ (JS.isFinite a = false /\ JS.isZero b = true)
      \/ (JS.isZero a = true /\ JS.isFinite b = false).
Proof.
  destruct a as [sa|sa| |sa ma ea], b as [sb|sb| |sb mb eb];
    cbn [JS.mul SFmul JS.isNaN JS.isFinite JS.isZero];
    try (split; [discriminate | intros [H|[H|[[H1 H2]|[H1 H2]]]]; discriminate]);
    try (split; [intros _|reflexivity]; auto 6; fail).
  rewrite binary_round_aux_number by lia.
  split; [discriminate | intros [H|[H|[[H1 H2]|[H1 H2]]]]; discriminate].
Qed.

(** ** The order of the numbers *)

Lemma compare_cont_Eq_refl (p : positive) : Pos.compare_cont Eq p p = Eq.
Proof. apply Pos.compare_cont_refl. Qed.

Lemma SFcompare_refl (a : number) :
  JS.isNaN a = false -> SFcompare a a = Some Eq.
Proof.
  destruct a as [s|s| |s m e]; try discriminate; intros _; cbn.
  - reflexivity.
  - destruct s; reflexivity.
  - rewrite Z.compare_refl, Pos.compare_cont_refl. destruct s; reflexivity.
Qed.

Lemma SFcompare_swap (a b : number) (c : comparison) :
  SFcompare a b = Some c -> SFcompare b a = Some (CompOpp c).
Proof.
  destruct a as [sa|sa| |sa ma ea], b as [sb|sb| |sb mb eb]; cbn;
    try discriminate; intros H; injection H as <-;
    try (destruct sa; reflexivity); try (destruct sb; reflexivity);
    try (destruct sa, sb; reflexivity).
  rewrite (Z.compare_antisym ea eb).
  change (Pos.compare_cont Eq mb ma) with (Pos.compare mb ma).
  change (Pos.compare_cont Eq ma mb) with (Pos.compare ma mb).
  rewrite (Pos.compare_antisym ma mb).
  destruct sa, sb, (ea ?= eb), (ma ?= mb)%positive; reflexivity.
Qed.


Lemma SFcompare_None (a b : number) :
  SFcompare a b = None -> JS.isNaN a = true \/ JS.isNaN b = true.
Proof.
  destruct a as [sa|sa| |sa ma ea], b as [sb|sb| |sb mb eb]; cbn;
    try discriminate; auto.
Qed.

Lemma le64_refl (a : number) : JS.isNaN a = false -> JS.le a a = true.
Proof.
  intros Ha. unfold JS.le, SFleb. rewrite (SFcompare_refl a Ha). reflexivity.
Qed.

(** [Math.max] returns one of its arguments, which is not below the
    other; [Math.min] one that is not above. *)
Lemma max64_spec (a b : number) :
  JS.isNaN a = false -> JS.isNaN b = false ->
  (JS.max a b = a \/ JS.max a b = b)
  /\ JS.le a (JS.max a b) = true /\ JS.le b (JS.max a b) = true.
Proof.
  intros Ha Hb. unfold JS.max, JS.le, SFleb.
  destruct (SFcompare a b) as [[| |]|] eqn:Hc.
  - assert (Hba := SFcompare_swap a b _ Hc). cbn in Hba.
    destruct a as [[|]| | |]; rewrite ?Hc, ?Hba, ?(SFcompare_refl _ Ha),
      ?(SFcompare_refl _ Hb); auto.
  - rewrite Hc, (SFcompare_refl _ Hb). auto.
  - rewrite (SFcompare_refl _ Ha), (SFcompare_swap a b _ Hc). auto.
  - destruct (SFcompare_None a b Hc); congruence.
Qed.

Lemma min64_spec (a b : number) :
  JS.isNaN a = false -> JS.isNaN b = false ->
  (JS.min a b = a \/ JS.min a b = b)
  /\ JS.le (JS.min a b) a = true /\ JS.le (JS.min a b) b = true.
Proof.
  intros Ha Hb. unfold JS.min, JS.le, SFleb.
  destruct (SFcompare a b) as [[| |]|] eqn:Hc.
  - assert (Hba := SFcompare_swap a b _ Hc). cbn in Hba.
    destruct a as [[|]| | |]; rewrite ?Hc, ?Hba, ?(SFcompare_refl _ Ha),
      ?(SFcompare_refl _ Hb); auto.
  - rewrite Hc, (SFcompare_refl _ Ha). auto.
  - rewrite (SFcompare_refl _ Hb), (SFcompare_swap a b _ Hc). auto.
  - destruct (SFcompare_None a b Hc); congruence.
Qed.

Lemma le64_number (a b : number) :
  JS.le a b = true -> JS.isNaN a = false /\ JS.isNaN b = false.
Proof.
  destruct a as [sa|sa| |sa ma ea], b as [sb|sb| |sb mb eb]; cbn;
    try discriminate; auto.
Qed.

Lemma lt64_number (a b : number) :
  JS.lt a b = true -> JS.isNaN a = false /\ JS.isNaN b = false.
Proof.
  destruct a as [sa|sa| |sa ma ea], b as [sb|sb| |sb mb eb]; cbn;
    try discriminate; auto.
Qed.

Lemma neg64_number (a : number) : JS.isNaN (JS.neg a) = JS.isNaN a.
Proof. destruct a; reflexivity. Qed.

(** A bound that is not negative is not below its opposite. *)
Lemma neg_le64 (L : number) : JS.le zero L = true -> JS.le (JS.neg L) L = true.
Proof. destruct L as [s|[|]| |[|] m e]; cbn; try discriminate; reflexivity. Qed.

(** ** [clamp] *)

Lemma clamp_NaN64 (lo hi : value) : clamp (VNumber NaN) lo hi = NaN.
Proof. reflexivity. Qed.

Lemma clamp_within64 (v L : number) :
  JS.isNaN v = false -> JS.le zero L = true ->
  within L (clamp (VNumber v) (VNumber (JS.neg L)) (VNumber L)).
Proof.
  intros Hv HL. destruct (le64_number _ _ HL) as [_ HLn].
  assert (Hlo : JS.isNaN (JS.neg L) = false) by (rewrite neg64_number; exact HLn).
  unfold clamp, Math_max, Math_min, within. cbn [ToNumber].
  destruct (max64_spec v (JS.neg L) Hv Hlo) as (Hm & _ & Hlom).
  assert (Hmn : JS.isNaN (JS.max v (JS.neg L)) = false).
  { destruct Hm as [-> | ->]; assumption. }
  destruct (min64_spec (JS.max v (JS.neg L)) L Hmn HLn) as (Hr & _ & HrL).
  split; [|exact HrL].
  destruct Hr as [-> | ->]; [exact Hlom | apply neg_le64, HL].
Qed.

Lemma clamp_negative_limit64 (v L : number) :
  JS.isNaN v = false -> JS.lt L zero = true ->
  clamp (VNumber v) (VNumber (JS.neg L)) (VNumber L) = L.
Proof.
  intros Hv HL. destruct (lt64_number _ _ HL) as [HLn _].
  assert (Hlo : JS.isNaN (JS.neg L) = false) by (rewrite neg64_number; exact HLn).
  unfold clamp, Math_max, Math_min. cbn [ToNumber].
  destruct (max64_spec v (JS.neg L) Hv Hlo) as (_ & _ & Hlom).
  destruct (JS.max v (JS.neg L)) as [sm|sm| |sm mm em];
    destruct L as [sl|[|]| |[|] ml el]; cbn in HL, Hlom |- *;
    try discriminate; try reflexivity;
    destruct sm; try discriminate; reflexivity.
Qed.

(** ** What one frame computes *)

Lemma onAnimationFrame_unfold64 (W : World) :
  let p := this W in
  let W1 :=
    if JS.gt (JS.abs (dx p)) (ToNumber (calibrationThreshold p))
       || JS.gt (JS.abs (dy p)) (ToNumber (calibrationThreshold p))
    then calibrate zero W else W in
  let ox' := if negb (JS.isNaN (parseFloat (limitX p)))
             then clamp (fst (rawOffsets p)) (JS.neg (ToNumber (limitX p))) (limitX p)
             else fst (rawOffsets p) in
  let oy' := if negb (JS.isNaN (parseFloat (limitY p)))
             then clamp (snd (rawOffsets p)) (JS.neg (ToNumber (limitY p))) (limitY p)
             else snd (rawOffsets p) in
  onAnimationFrame W
  = (Build_World
       (set_raf (Some (nextHandle (window W1)))
                (set_oy oy' (set_ox ox' (this W1))))
       (snd (requestAnimationFrame (window W1))),
     imap (fun index (_ : value) =>
             let depth := default VUndefined (depths p !! index) in
             setPosition index
               (JS.mul (JS.mul ox' (ToNumber depth))
                       (if JS.ToBoolean (invertX p) then minusOne else one))
               (JS.mul (JS.mul oy' (ToNumber depth))
                       (if JS.ToBoolean (invertY p) then minusOne else one)))
          (layers p)).
Proof.
  destruct W as [p w]; destruct p, w.
  unfold onAnimationFrame, calibrate, rawOffsets, dx, dy. cbv zeta.
  cbn [this window rx ry cx cy calibrationThreshold portrait scalarX scalarY
       limitX limitY calibrationTimer].
  destruct (JS.gt _ _ || JS.gt _ _); cbn -[clamp JS.sub JS.mul JS.gt JS.abs];
  destruct portrait0; cbn -[clamp JS.sub JS.mul JS.gt JS.abs];
  destruct (JS.isNaN (parseFloat limitX0)); cbn -[clamp JS.sub JS.mul JS.gt JS.abs];
  destruct (JS.isNaN (parseFloat limitY0)); cbn -[clamp JS.sub JS.mul JS.gt JS.abs];
  reflexivity.
Qed.

Lemma onAnimationFrame_offsets64 (W : World) :
  let p := this W in
  let p' := this (fst (onAnimationFrame W)) in
  ox p' = (if negb (JS.isNaN (parseFloat (limitX p)))
           then clamp (fst (rawOffsets p)) (JS.neg (ToNumber (limitX p))) (limitX p)
           else fst (rawOffsets p))
  /\ oy p' = (if negb (JS.isNaN (parseFloat (limitY p)))
              then clamp (snd (rawOffsets p)) (JS.neg (ToNumber (limitY p))) (limitY p)
              else snd (rawOffsets p)).
Proof.
  cbv zeta. rewrite onAnimationFrame_unfold64. cbv zeta. cbn [fst this].
  destruct (if _ || _ then _ else _) as [p1 w1]. destruct p1. split; reflexivity.
Qed.

Lemma parseFloat_number64 (L : number) :
  JS.isNaN (parseFloat (VNumber L)) = JS.isNaN L.
Proof. destruct L; reflexivity. Qed.

(** With a finite rotation sample and bias and a finite scalar, the raw
    offset of an axis is [NaN] in one case only: the difference
    overflowed and the scalar is zero. *)
Lemma raw_offset_NaN (a b : number) (scalar : value) :
  JS.isFinite a = true -> JS.isFinite b = true ->
  JS.isFinite (ToNumber scalar) = true ->
  overflowTimesZero (JS.sub a b) scalar (JS.mul (JS.sub a b) (ToNumber scalar)).
Proof.
  intros Ha Hb Hs. unfold overflowTimesZero. rewrite mul_NaN_iff.
  pose proof (sub_finite_number a b Ha Hb) as Hd.
  split.
  - intros [H|[H|[H|[_ H]]]]; [congruence | | exact H | congruence].
    destruct (ToNumber scalar); discriminate.
  - auto.
Qed.

Lemma raw_offsets_NaN (p : Plugin) :
  finiteSample p ->
  (JS.isFinite (ToNumber (scalarX p)) = true ->
   overflowTimesZero (if portrait p then dy p else dx p) (scalarX p)
                     (fst (rawOffsets p)))
  /\ (JS.isFinite (ToNumber (scalarY p)) = true ->
      overflowTimesZero (if portrait p then dx p else dy p) (scalarY p)
                        (snd (rawOffsets p))).
Proof.
  intros (Hrx & Hcx & Hry & Hcy). unfold rawOffsets, dx, dy.
  destruct (portrait p); cbn [fst snd]; split; intros Hs;
    apply raw_offset_NaN; assumption.
Qed.

Lemma limited_offset64 (raw L : number) :
  JS.isNaN L = false ->
  (if negb (JS.isNaN (parseFloat (VNumber L)))
   then clamp (VNumber raw) (VNumber (JS.neg (ToNumber (VNumber L)))) (VNumber L)
   else raw)
  = clamp (VNumber raw) (VNumber (JS.neg L)) (VNumber L).
Proof. intros HL. rewrite parseFloat_number64, HL. reflexivity. Qed.

(** C5.  When [limitX] is a number [L >= 0], the offset [ox] a frame
    stores lies between [-L] and [L] whenever the raw offset of the
    axis is a number, in either orientation mode; when the raw offset
    is [NaN], so is [ox].  With a finite rotation sample, bias and
    scalar the raw offset is [NaN] in one case: the difference of
    rotation and bias overflowed to an infinity and the scalar is
    zero.  The same holds for [limitY] and [oy]. *)
Theorem limit_bounds (W : World) (L : number) :
  JS.le zero L = true ->
  let p := this W in
  let p' := this (fst (onAnimationFrame W)) in
  (limitX p = VNumber L ->
   (JS.isNaN (fst (rawOffsets p)) = false -> within L (ox p'))
   /\ (JS.isNaN (fst (rawOffsets p)) = true -> ox p' = NaN))
  /\ (limitY p = VNumber L ->
      (JS.isNaN (snd (rawOffsets p)) = false -> within L (oy p'))
      /\ (JS.isNaN (snd (rawOffsets p)) = true -> oy p' = NaN))
  /\ (finiteSample p ->
      (JS.isFinite (ToNumber (scalarX p)) = true ->
       overflowTimesZero (if portrait p then dy p else dx p) (scalarX p)
                         (fst (rawOffsets p)))
      /\ (JS.isFinite (ToNumber (scalarY p)) = true ->
          overflowTimesZero (if portrait p then dx p else dy p) (scalarY p)
                            (snd (rawOffsets p)))).
Proof.
  intros HL. cbv zeta. destruct (le64_number _ _ HL) as [_ HLn].
  destruct (onAnimationFrame_offsets64 W) as [-> ->].
  split; [|split; [|apply raw_offsets_NaN]].
  - intros ->. rewrite (limited_offset64 _ L HLn). split.
    + intros Hraw. apply clamp_within64; assumption.
    + destruct (fst (rawOffsets (this W))); try discriminate. reflexivity.
  - intros ->. rewrite (limited_offset64 _ L HLn). split.
    + intros Hraw. apply clamp_within64; assumption.
    + destruct (snd (rawOffsets (this W))); try discriminate. reflexivity.
Qed.

(** C9.  The setter [limit] stores a negative number as it stores any
    other; and when [limitX] is a number [L < 0], the offset [ox] a
    frame stores is [L] itself whenever the raw offset of the axis is
    a number: [clamp] takes the maximum with [-L] first and the minimum
    with [L] after.  When the raw offset is [NaN], so is [ox]; with a
    finite rotation sample, bias and scalar that is the case when the
    difference overflowed and the scalar is zero, and only then.  The
    same holds for [limitY] and [oy]. *)
Theorem negative_limit_pins_offset (W : World) (L : number) :
  JS.lt L zero = true ->
  let p := this W in
  let p' := this (fst (onAnimationFrame W)) in
  limitX (limit L VUndefined p) = VNumber L
  /\ limitY (limit VUndefined L p) = VNumber L
  /\ (limitX p = VNumber L ->
      (JS.isNaN (fst (rawOffsets p)) = false -> ox p' = L)
      /\ (JS.isNaN (fst (rawOffsets p)) = true -> ox p' = NaN))
  /\ (limitY p = VNumber L ->
      (JS.isNaN (snd (rawOffsets p)) = false -> oy p' = L)
      /\ (JS.isNaN (snd (rawOffsets p)) = true -> oy p' = NaN))
  /\ (finiteSample p ->
      (JS.isFinite (ToNumber (scalarX p)) = true ->
       overflowTimesZero (if portrait p then dy p else dx p) (scalarX p)
                         (fst (rawOffsets p)))
      /\ (JS.isFinite (ToNumber (scalarY p)) = true ->
          overflowTimesZero (if portrait p then dx p else dy p) (scalarY p)
                            (snd (rawOffsets p)))).
Proof.
  intros HL. cbv zeta. destruct (lt64_number _ _ HL) as [HLn _].
  destruct (onAnimationFrame_offsets64 W) as [-> ->].
  split; [destruct (this W); reflexivity|].
  split; [destruct (this W); reflexivity|].
  split; [|split; [|apply raw_offsets_NaN]].
  - intros ->. rewrite (limited_offset64 _ L HLn). split.
    + intros Hraw. apply clamp_negative_limit64; assumption.
    + destruct (fst (rawOffsets (this W))); try discriminate. reflexivity.
  - intros ->. rewrite (limited_offset64 _ L HLn). split.
    + intros Hraw. apply clamp_negative_limit64; assumption.
    + destruct (snd (rawOffsets (this W))); try discriminate. reflexivity.
Qed.

(** ** Layers of depth 0 *)

(** What a layer of depth [+0] is sent for an offset: a zero when the
    offset is finite, [NaN] when it is an infinity or [NaN]. *)
Lemma zero_times64 (o : number) (invert : value) :
  (JS.isFinite o = true ->
   JS.isZero (JS.mul (JS.mul o (ToNumber (VNumber zero)))
                     (if JS.ToBoolean invert then minusOne else one)) = true)
  /\ (JS.isFinite o = false ->
      JS.mul (JS.mul o (ToNumber (VNumber zero)))
             (if JS.ToBoolean invert then minusOne else one) = NaN).
Proof.
  destruct o as [s|s| |s m e]; destruct (JS.ToBoolean invert);
    split; intros H; try discriminate H; reflexivity.
Qed.

(** A frame leaves the layers and their depths as they are. *)
Lemma onAnimationFrame_setup64 (V : World) :
  layers (this (fst (onAnimationFrame V))) = layers (this V)
  /\ depths (this (fst (onAnimationFrame V))) = depths (this V).
Proof.
  rewrite onAnimationFrame_unfold64. cbv zeta. cbn [fst this].
  destruct V as [p w]; destruct p, w. unfold calibrate. cbn.
  destruct (JS.gt _ _ || JS.gt _ _); split; reflexivity.
Qed.

(** C8.  [initialise] caches depth [0] for a layer whose depth
    attribute is missing or falsy.  In every state of the instance in
    which that is the depth of the layer, a frame sends the layer a
    command whose [x] is a zero when the offset [ox] the frame stored
    is finite, and [NaN] when it is an infinity or [NaN], whatever the
    inversion settings; the same holds for [y] and [oy]; and the frame
    leaves the layers and the depths as they are, so that the next
    frame does the same. *)
Theorem zero_depth_layer (W : World) (i : nat) (d : value) :
  layers (this W) !! i = Some d ->
  JS.ToBoolean d = false ->
  depths (this W) = [] ->
  depths (this (initialise W)) !! i = Some (VNumber zero)
  /\ layers (this (initialise W)) = layers (this W)
  /\ forall V : World,
      layers (this V) = layers (this W) ->
      depths (this V) !! i = Some (VNumber zero) ->
      let p' := this (fst (onAnimationFrame V)) in
      layers p' = layers (this W)
      /\ depths p' !! i = Some (VNumber zero)
      /\ exists c,
          snd (onAnimationFrame V) !! i = Some c
          /\ element c = i
          /\ (JS.isFinite (ox p') = true -> JS.isZero (x c) = true)
          /\ (JS.isFinite (ox p') = false -> x c = NaN)
          /\ (JS.isFinite (oy p') = true -> JS.isZero (y c) = true)
          /\ (JS.isFinite (oy p') = false -> y c = NaN).
Proof.
  intros Hi Hd Hdepths. split; [|split].
  - destruct W as [p w]; destruct p, w. cbn in Hi, Hdepths |- *. subst.
    unfold calibrate. cbn.
    change (map ?f ?l) with (f <$> l).
    rewrite list_lookup_fmap, Hi. cbn. unfold JS.or. rewrite Hd. reflexivity.
  - destruct W as [p w]; destruct p, w. reflexivity.
  - intros V Hlayers Hdepth. cbv zeta.
    destruct (onAnimationFrame_setup64 V) as [-> ->].
    split; [exact Hlayers|]. split; [exact Hdepth|].
    destruct (onAnimationFrame_offsets64 V) as [Hox Hoy]. cbv zeta in Hox, Hoy.
    rewrite Hox, Hoy. rewrite onAnimationFrame_unfold64. cbv zeta. cbn [snd].
    rewrite list_lookup_imap, Hlayers, Hi, Hdepth.
    cbn [fmap option_fmap option_map default].
    eexists. split; [reflexivity|]. cbn [element x y setPosition].
    split; [reflexivity|].
    split; [apply zero_times64|]. split; [apply zero_times64|].
    split; apply zero_times64.
Qed.

End DoublePrecision.


(** * Closed examples

    The scenarios of the specification, the inputs at which the
    theorems above are applied, and the inputs at which sentences of
    the specification fail. *)

#[local] Existing Instance exampleBuiltins.

(** Section 8, first scenario: default configuration, portrait, bias
    (10, 20, 0), sample (15, 25): the offset is (2.5, 2.5) and the layer
    of depth 1 is sent (-2.5, -2.5). *)
Example scenario_portrait :
  snd (run [AnimationFrame] (calibratedWorld portraitWindow))
  = [setPosition 0 (Num (0 # 2)) (Num (0 # 2));
     setPosition 1 (Num (-5 # 2)) (Num (-5 # 2))]
  /\ ox (this (fst (run [AnimationFrame] (calibratedWorld portraitWindow))))
     = Num (5 # 2)
  /\ oy (this (fst (run [AnimationFrame] (calibratedWorld portraitWindow))))
     = Num (5 # 2).
Proof. vm_compute. repeat split; reflexivity. Qed.

(** Section 8, second scenario: [limitX = 1], raw [ox = 10]: [ox = 1]. *)
Example scenario_limit :
  ox (this (fst (onAnimationFrame (limitedWorld 1 portraitWindow)))) = Num 1.
Proof. vm_compute. reflexivity. Qed.

(** Section 8, third scenario: [scalarX = 0]: [ox = 0]. *)
Example scenario_scalar_zero :
  ox (this (fst (run [Scalar (Num 0) VUndefined; AnimationFrame]
                     (calibratedWorld portraitWindow)))) = Num 0.
Proof. vm_compute. reflexivity. Qed.

(** Premises at a concrete world are settled by evaluation. *)
Ltac by_evaluation :=
  vm_compute;
  first [ reflexivity | exact I | let H := fresh in intro H; discriminate H ].



(** C7 at the resting world: the flag is clear and the mode is that of
    the viewport, and the next sample leaves the bias alone. *)
Lemma calibration_capture_once_witness :
  bias (onDeviceOrientation (tilt 15 25 0) (restingWorld portraitWindow))
  = bias (restingWorld portraitWindow).
Proof.
  apply (proj1 (proj2 (proj2 (proj2 (proj2
           (calibration_capture_once (tilt 15 25 0) (restingWorld portraitWindow)))))));
    by_evaluation.
Defined.

#[local] Existing Instance IEEE.exampleBuiltins.

(** C5 at [limitX = 1] and the raw offset 10, which is stored as 1. *)
Lemma limit_bounds_witness :
  let W := IEEE.exampleWorld IEEE.zero (IEEE.ofZ 25) IEEE.zero (IEEE.ofZ 5)
             IEEE.half IEEE.half (IEEE.VNumber IEEE.one) (IEEE.VBool false) in
  IEEE.within IEEE.one (IEEE.ox (IEEE.this (fst (IEEE.onAnimationFrame W))))
  /\ IEEE.ox (IEEE.this (fst (IEEE.onAnimationFrame W))) = IEEE.one.
Proof.
  split; [|by_evaluation].
  apply (proj1 (proj1 (limit_bounds
                  (IEEE.exampleWorld IEEE.zero (IEEE.ofZ 25) IEEE.zero (IEEE.ofZ 5)
                     IEEE.half IEEE.half (IEEE.VNumber IEEE.one) (IEEE.VBool false))
                  IEEE.one ltac:(by_evaluation)) ltac:(by_evaluation)));
    by_evaluation.
Defined.

(** C5 fails on finite inputs: with the rotation [Number.MAX_VALUE],
    the bias [-Number.MAX_VALUE], the scalar 0 and [limitX = 1] the
    difference overflows, the raw offset is [Infinity * 0] and the
    offset stored is [NaN], which is not within the limit. *)
Lemma overflow_escapes_limit :
  let W := IEEE.exampleWorld IEEE.zero IEEE.MAX_VALUE
             IEEE.zero (IEEE.JS.neg IEEE.MAX_VALUE)
             IEEE.zero IEEE.half (IEEE.VNumber IEEE.one) (IEEE.VBool false) in
  IEEE.finiteSample (IEEE.this W)
  /\ IEEE.ox (IEEE.this (fst (IEEE.onAnimationFrame W))) = IEEE.NaN
  /\ ~ IEEE.within IEEE.one (IEEE.ox (IEEE.this (fst (IEEE.onAnimationFrame W)))).
Proof.
  split; [repeat split|]. split; [by_evaluation|].
  intros [H _]. vm_compute in H. discriminate H.
Qed.

(** C9 at [limitX = -1] and the raw offset 10, which is stored as
    -1. *)
Lemma negative_limit_pins_offset_witness :
  let W := IEEE.exampleWorld IEEE.zero (IEEE.ofZ 25) IEEE.zero (IEEE.ofZ 5)
             IEEE.half IEEE.half (IEEE.VNumber IEEE.minusOne) (IEEE.VBool false) in
  IEEE.ox (IEEE.this (fst (IEEE.onAnimationFrame W))) = IEEE.minusOne.
Proof.
  apply (proj1 (proj1 (proj2 (proj2 (negative_limit_pins_offset
                  (IEEE.exampleWorld IEEE.zero (IEEE.ofZ 25) IEEE.zero (IEEE.ofZ 5)
                     IEEE.half IEEE.half (IEEE.VNumber IEEE.minusOne) (IEEE.VBool false))
                  IEEE.minusOne ltac:(by_evaluation)))) ltac:(by_evaluation)));
    by_evaluation.
Defined.

(** C9 fails on finite inputs: with the rotation [Number.MAX_VALUE],
    the bias [-Number.MAX_VALUE], the scalar 0 and [limitX = -1] the
    raw offset is [Infinity * 0] and the offset stored is [NaN], not
    -1. *)
Lemma overflow_escapes_negative_limit :
  let W := IEEE.exampleWorld IEEE.zero IEEE.MAX_VALUE
             IEEE.zero (IEEE.JS.neg IEEE.MAX_VALUE)
             IEEE.zero IEEE.half (IEEE.VNumber IEEE.minusOne) (IEEE.VBool false) in
  IEEE.finiteSample (IEEE.this W)
  /\ IEEE.ox (IEEE.this (fst (IEEE.onAnimationFrame W))) = IEEE.NaN
  /\ IEEE.ox (IEEE.this (fst (IEEE.onAnimationFrame W))) <> IEEE.minusOne.
Proof.
  split; [repeat split|]. split; [by_evaluation|].
  vm_compute. discriminate.
Qed.

(** C8 at the example world, whose first layer has no depth
    attribute: with the finite offsets (10, 0) it is sent two zeros. *)
Lemma zero_depth_layer_witness :
  let W := IEEE.constructedWorld IEEE.zero (IEEE.ofZ 25) IEEE.zero (IEEE.ofZ 5)
             IEEE.half IEEE.half (IEEE.VBool false) (IEEE.VBool false) in
  IEEE.depths (IEEE.this (IEEE.initialise W)) !! 0%nat
  = Some (IEEE.VNumber IEEE.zero)
  /\ exists c,
      snd (IEEE.onAnimationFrame (IEEE.initialise W)) !! 0%nat = Some c
      /\ IEEE.JS.isZero (IEEE.x c) = true
      /\ IEEE.JS.isZero (IEEE.y c) = true.
Proof.
  destruct (zero_depth_layer
              (IEEE.constructedWorld IEEE.zero (IEEE.ofZ 25) IEEE.zero (IEEE.ofZ 5)
                 IEEE.half IEEE.half (IEEE.VBool false) (IEEE.VBool false))
              0%nat IEEE.VUndefined
              ltac:(by_evaluation) ltac:(by_evaluation) ltac:(by_evaluation))
    as (Hdepth & Hlayers & Hframe).
  split; [exact Hdepth|].
  destruct (Hframe _ Hlayers Hdepth) as (_ & _ & c & Hc & _ & Hx & _ & Hy & _).
  exists c. split; [exact Hc|].
  split; [apply Hx | apply Hy]; by_evaluation.
Defined.

(** C8 fails on finite inputs: the difference of the rotation
    [Number.MAX_VALUE] and the bias [-Number.MAX_VALUE] overflows, the
    offset [oy] stored is [Infinity], and the layer without a depth
    attribute is sent [y = Infinity * 0 * -1], which is [NaN] and not
    0. *)
Lemma infinite_offset_moves_depth_zero_layer :
  let W := IEEE.exampleWorld IEEE.MAX_VALUE IEEE.zero
             (IEEE.JS.neg IEEE.MAX_VALUE) IEEE.zero
             IEEE.half IEEE.half (IEEE.VBool false) (IEEE.VBool false) in
  IEEE.finiteSample (IEEE.this W)
  /\ IEEE.layers (IEEE.this W) !! 0%nat = Some IEEE.VUndefined
  /\ IEEE.depths (IEEE.this W) !! 0%nat = Some (IEEE.VNumber IEEE.zero)
  /\ IEEE.oy (IEEE.this (fst (IEEE.onAnimationFrame W))) = IEEE.Infinity
  /\ snd (IEEE.onAnimationFrame W) !! 0%nat
     = Some (IEEE.setPosition 0 (S754_zero true) IEEE.NaN)
  /\ IEEE.JS.isZero IEEE.NaN = false.
Proof.
  cbv zeta. split; [repeat split|]. repeat split; vm_compute; reflexivity.
Qed.

(** C10 at two runs that differ in every z component: the [alpha] of
    each event, and the [rz] and [cz] the run starts from. *)
Lemma z_components_never_observed_witness :
  let inputs1 := [DeviceOrientation (tilt 10 20 30);
                  DeviceOrientation (tilt 15 25 40); AnimationFrame] in
  let inputs2 := [DeviceOrientation (tilt 10 20 300);
                  DeviceOrientation (tilt 15 25 7); AnimationFrame] in
  let W1 := exampleWorld portraitWindow in
  let W2 := withZ (Num 90) (Num 45) (exampleWorld portraitWindow) in
  snd (run inputs1 W1) = snd (run inputs2 W2)
  /\ eraseZ (fst (run inputs1 W1)) = eraseZ (fst (run inputs2 W2))
  /\ ox (this (fst (run inputs1 W1))) = ox (this (fst (run inputs2 W2)))
  /\ oy (this (fst (run inputs1 W1))) = oy (this (fst (run inputs2 W2))).
Proof.
  apply (z_components_never_observed
           [DeviceOrientation (tilt 10 20 30); DeviceOrientation (tilt 15 25 40);
            AnimationFrame]
           [DeviceOrientation (tilt 10 20 300); DeviceOrientation (tilt 15 25 7);
            AnimationFrame]
           (exampleWorld portraitWindow)
           (withZ (Num 90) (Num 45) (exampleWorld portraitWindow)));
    by_evaluation.
Defined.


(** C2 fails where a key is given both ways: with [scalarX] 2 by option
    and 3 by attribute, the instance has [scalarX = 3]. *)
Lemma attribute_overrides_option :
  let p := this (Plugin_new exampleOptions exampleAttribute [] landscapeWindow) in
  exampleOptions !! "scalarX"%string = Some (VNumber (Num 2))
  /\ exampleAttribute "scalar-x" = VNumber (Num 3)
  /\ scalarX p = VNumber (Num 3)
  /\ scalarX p <> VNumber (Num 2).
Proof.
  cbv zeta. repeat split; try (vm_compute; reflexivity).
  vm_compute. intros H. discriminate H.
Qed.

(** C3 fails on the constructed instance, which is running: after one
    more [enable()] two handlers are bound instead of one, two frame
    requests are pending instead of one, and a frame positions each of
    the two layers twice. *)
Lemma second_enable_doubles :
  let W := exampleWorld landscapeWindow in
  handlers (window W) = 1%nat
  /\ handlers (window (enable W)) = 2%nat
  /\ length (frames (window W)) = 1%nat
  /\ length (frames (window (enable W))) = 2%nat
  /\ length (snd (run [AnimationFrame] W)) = 2%nat
  /\ length (snd (run [AnimationFrame] (enable W))) = 4%nat
  /\ snd (run [AnimationFrame] (enable W)) <> snd (run [AnimationFrame] W).
Proof.
  cbv zeta. repeat split; try (vm_compute; reflexivity).
  vm_compute. intros H. discriminate H.
Qed.

(** C4 fails on a square viewport: the handler stores Landscape where
    the specification says Portrait. *)
Lemma square_viewport_is_landscape :
  let W := exampleWorld squareWindow in
  innerWidth (window W) = innerHeight (window W)
  /\ mode (this (onDeviceOrientation (tilt 0 0 0) W)) = Landscape
  /\ specifiedMode (innerWidth (window W)) (innerHeight (window W)) = Portrait
  /\ mode (this (onDeviceOrientation (tilt 0 0 0) W))
     <> specifiedMode (innerWidth (window W)) (innerHeight (window W)).
Proof.
  cbv zeta. repeat split; try (vm_compute; reflexivity).
  vm_compute. intros H. discriminate H.
Qed.

(** * The further properties at concrete inputs *)

Ltac by_evaluations :=
  vm_compute; repeat split;
  first [ reflexivity | exact I | let H := fresh in intro H; discriminate H ].

(** X1 over a run in which two frames in a row reschedule the
    calibration. *)
Lemma one_calibration_timer_witness :
  let inputs := [DeviceOrientation (tilt 10 20 0);
                 DeviceOrientation (tilt 150 25 0);
                 AnimationFrame; AnimationFrame] in
  let W0 := Plugin_new ∅ (fun _ => VUndefined)
                       [VUndefined; VNumber (Num 1)] landscapeWindow in
  let W := fst (run inputs W0) in
  timers (window W0)
  = [(S (nextHandle landscapeWindow), calibrationDelay (this W0))]
  /\ (length (timers (window W)) <= 1)%nat
  /\ (forall t, In t (timers (window W)) -> calibrationTimer (this W) = Some (fst t)).
Proof.
  apply (one_calibration_timer ∅ (fun _ => VUndefined)
           [VUndefined; VNumber (Num 1)] landscapeWindow
           [DeviceOrientation (tilt 10 20 0); DeviceOrientation (tilt 150 25 0);
            AnimationFrame; AnimationFrame]).
  by_evaluation.
Defined.



(** X4 at the constructed instance, whose flag is set. *)
Lemma capture_on_flag_or_mode_change_witness :
  let W := exampleWorld landscapeWindow in
  let event := tilt 10 20 0 in
  (calibrationFlag (this W) = true
   \/ portrait (this W) <> (innerHeight (window W) >? innerWidth (window W))%Z ->
   bias (deviceOrientation event W) = sample event)
  /\ (settled W -> bias (deviceOrientation event W) = bias W)
  /\ rotation (deviceOrientation event W) = sample event
  /\ settled (deviceOrientation event W).
Proof.
  apply (capture_on_flag_or_mode_change (tilt 10 20 0) (exampleWorld landscapeWindow)).
  by_evaluation.
Defined.


(** X6 over a run with an event whose angles are missing. *)
Lemma angles_stay_finite_witness :
  finiteAngles
    (fst (run [DeviceOrientation (tilt 10 20 0);
               DeviceOrientation (Build_Event VNull VUndefined (VNumber NaN));
               AnimationFrame]
              (Plugin_new ∅ (fun _ => VUndefined) [VUndefined; VNumber (Num 1)]
                          landscapeWindow))).
Proof.
  apply (angles_stay_finite ∅ (fun _ => VUndefined) [VUndefined; VNumber (Num 1)]
           landscapeWindow
           [DeviceOrientation (tilt 10 20 0);
            DeviceOrientation (Build_Event VNull VUndefined (VNumber NaN));
            AnimationFrame]).
  repeat (apply Forall_cons_2; [by_evaluations|]). apply Forall_nil_2.
Defined.

(** X7 over a run without [enable()] and [disable()]. *)
Lemma disable_stops_witness :
  let W := fst (run [DeviceOrientation (tilt 10 20 0); AnimationFrame;
                     Limit (Num 1) VUndefined; AnimationFrame]
                    (Plugin_new ∅ (fun _ => VUndefined)
                                [VUndefined; VNumber (Num 1)] landscapeWindow)) in
  let V := disable W in
  oneLoop W
  /\ stopped V
  /\ this V = this W
  /\ (forall event, deviceOrientation event V = V)
  /\ animationFrame V = (V, [])
  /\ handlers (window (enable V)) = 1%nat
  /\ oneLoop (enable V).
Proof.
  apply (disable_stops ∅ (fun _ => VUndefined) [VUndefined; VNumber (Num 1)]
           landscapeWindow
           [DeviceOrientation (tilt 10 20 0); AnimationFrame;
            Limit (Num 1) VUndefined; AnimationFrame]).
  - by_evaluation.
  - repeat (apply Forall_cons_2; [exact I|]). apply Forall_nil_2.
Defined.

(** X8 after three calls of [enable()] on the stopped example. *)
Lemma disable_leaves_older_loops_witness :
  let W := disable (exampleWorld landscapeWindow) in
  let V := disable (Nat.iter 3 enable W) in
  handlers (window V) = 0%nat
  /\ frames (window V) = seq (nextHandle (window W)) 2
  /\ length (snd (animationFrame V)) = (2 * length (layers (this W)))%nat.
Proof.
  apply (disable_leaves_older_loops (disable (exampleWorld landscapeWindow)) 2).
  by_evaluation.
Defined.

(** X10 at the limited world, whose [limitX] is 1. *)
Lemma limit_removed_by_null_only_witness :
  let W := limitedWorld 1 portraitWindow in
  ox (this (fst (onAnimationFrame (on_this (limit VNull VUndefined) W))))
  = fst (rawOffsets W)
  /\ oy (this (fst (onAnimationFrame (on_this (limit VUndefined VNull) W))))
     = snd (rawOffsets W)
  /\ ox (this (fst (onAnimationFrame (on_this (limit VUndefined (VNumber (Num 3))) W))))
     = ox (this (fst (onAnimationFrame W)))
  /\ oy (this (fst (onAnimationFrame (on_this (limit (VNumber (Num 3)) VUndefined) W))))
     = oy (this (fst (onAnimationFrame W))).
Proof.
  apply (limit_removed_by_null_only (limitedWorld 1 portraitWindow)
           VNull (VNumber (Num 3)));
    by_evaluation.
Defined.

(** X11 at the calibrated world, whose [invertX] is [true]. *)
Lemma invert_toggle_negates_x_witness :
  let W := calibratedWorld portraitWindow in
  let W' := on_this (invert (VBool false) VUndefined) W in
  Forall2 xNegated (snd (onAnimationFrame W)) (snd (onAnimationFrame W'))
  /\ ox (this (fst (onAnimationFrame W'))) = ox (this (fst (onAnimationFrame W)))
  /\ oy (this (fst (onAnimationFrame W'))) = oy (this (fst (onAnimationFrame W))).
Proof.
  apply (invert_toggle_negates_x (calibratedWorld portraitWindow) (VBool false));
    by_evaluation.
Defined.

(** X12 at the second layer of the example, of depth 1. *)
Lemma commands_follow_layers_witness :
  let W := fst (run [DeviceOrientation (tilt 10 20 0);
                     DeviceOrientation (tilt 15 25 0)]
                    (Plugin_new ∅ (fun _ => VUndefined)
                                [VUndefined; VNumber (Num 1)] portraitWindow)) in
  let p' := this (fst (onAnimationFrame W)) in
  snd (onAnimationFrame W) !! 1%nat
  = Some (setPosition 1
            (JS.mul (JS.mul (ox p') (ToNumber (JS.or (VNumber (Num 1)) (Num 0))))
                    (sign (invertX (this W))))
            (JS.mul (JS.mul (oy p') (ToNumber (JS.or (VNumber (Num 1)) (Num 0))))
                    (sign (invertY (this W))))).
Proof.
  apply (proj2 (proj2 (proj2
           (commands_follow_layers ∅ (fun _ => VUndefined)
              [VUndefined; VNumber (Num 1)] portraitWindow
              [DeviceOrientation (tilt 10 20 0); DeviceOrientation (tilt 15 25 0)])))
           1%nat (VNumber (Num 1))).
  reflexivity.
Defined.

(** X14 on a style that has [webkitTransform] only, the 3D test
    succeeding. *)
Lemma transform_support_witness :
  transformSupport webkitOnly (Some true) (VString "3D") = Some true
  /\ transformSupport webkitOnly (Some true) (VString "2D") = Some true
  /\ transformSupport webkitOnly (Some true) (VString "4D") = Some false.
Proof.
  destruct (transform_support webkitOnly (Some true) (VString "4D"))
    as (_ & _ & H3 & _ & H32 & Hother).
  assert (H : transformSupport webkitOnly (Some true) (VString "3D") = Some true).
  { apply H3. split; [|reflexivity].
    exists "webkitTransform"%string. split; [|reflexivity].
    right; right; right; left. reflexivity. }
  split; [exact H|]. split; [exact (H32 H)|].
  apply Hother; intros Heq; discriminate Heq.
Defined.

(** X15 on a style without any [transform] property. *)
Lemma position_strategy_witness :
  let c := setPosition 1 (Num (-5 # 2)) (Num (-5 # 2)) in
  setPositionStyle false false c
  = [("left", NumberToString (x c) ++ "%"); ("top", NumberToString (y c) ++ "%")]%string.
Proof.
  apply (proj1 (position_strategy (fun _ => false) (Some true) false false
                  (setPosition 1 (Num (-5 # 2)) (Num (-5 # 2)))
                  ltac:(reflexivity) ltac:(reflexivity))).
  intros name _. reflexivity.
Defined.


(** X17 on the example container. *)
Lemma parallax_enable_first_enables_twice_witness :
  let enabled := snd (parallax (AMethod MEnable) [] exampleContainer landscapeWindow) in
  let constructed := snd (parallax (AOptions ∅) [] exampleContainer landscapeWindow) in
  handlers enabled = S (S (handlers landscapeWindow))
  /\ frames enabled
     = frames landscapeWindow
       ++ [nextHandle landscapeWindow; S (S (nextHandle landscapeWindow))]
  /\ handlers constructed = S (handlers landscapeWindow)
  /\ frames constructed = frames landscapeWindow ++ [nextHandle landscapeWindow]
  /\ handlers (snd (parallax ANone [] exampleContainer landscapeWindow))
     = S (handlers landscapeWindow)
  /\ frames (snd (parallax ANone [] exampleContainer landscapeWindow))
     = frames landscapeWindow ++ [nextHandle landscapeWindow].
Proof.
  apply (parallax_enable_first_enables_twice [] exampleContainer landscapeWindow ∅).
  reflexivity.
Defined.
